(** * NotesFlow backend (server.js): credential and session-authorization core

    A shallow embedding of the Express handlers of [server.js] and of the
    parts of [jsonwebtoken], [bcryptjs] and [mongoose] they call.

    - The two Mongo collections are finite maps from [_id] to document
      (the primary-key index makes [_id] unique by construction).
    - Everything a handler reads from its environment is an explicit
      input: the wall clock ([Date.now()], in milliseconds), the salt drawn
      by [bcrypt.genSalt] and the [ObjectId] drawn by [new User]/[new Note].
    - A JSON web token is a payload together with an HS256 signature, the
      signature being the pair of the key and of the payload it was computed
      over (a perfect MAC).  How such a token is written as a string is left
      to the platform ([jws_encode], [jws_decode]), as are the bcrypt
      primitives and Mongoose's cast of a path parameter to an [ObjectId].
    - Request bodies carry JSON strings or nothing for each field; the
      fields of a login range over the JSON scalars. *)

From stdpp Require Import base option list gmap fin_maps sorting strings numbers pretty.
From Stdlib Require Import ZArith Lia Ascii String.

Open Scope Z_scope.
Open Scope string_scope.

(** ** Identifiers, documents, database *)

Abbreviation ObjectId := N (only parsing).

(** [userSchema]: email and (hashed) password; [_id] is the key. *)
Record User := mkUser { u_email : string; u_password : string }.

(** [noteSchema]. A path set to [undefined] is unset in the document. *)
Record Note := mkNote {
  n_title : option string;
  n_content : option string;
  n_owner : ObjectId;
  n_createdAt : Z
}.

Record DB := mkDB { users : gmap N User; notes : gmap N Note }.

#[global] Instance User_eq_dec : EqDecision User.
Proof. solve_decision. Defined.
#[global] Instance Note_eq_dec : EqDecision Note.
Proof. solve_decision. Defined.

(** ** JavaScript values used by the handlers *)

(** A thrown [Error]: the handlers only ever read [name] and [message]. *)
Record JsError := mkError { err_name : string; err_message : string }.

Inductive Try (A : Type) : Type :=
  | Return (a : A)
  | Throw (e : JsError).
Arguments Return {A} a.
Arguments Throw {A} e.

#[global] Instance Try_ret : MRet Try := fun _ a => Return a.
#[global] Instance Try_bind : MBind Try := fun _ _ f m =>
  match m with Return a => f a | Throw e => Throw e end.

(** [!v] is false exactly for a non-empty string. *)
Definition truthy (v : option string) : bool :=
  match v with
  | Some s => negb (String.eqb s "")
  | None => false
  end.

(** A scalar of a JSON request body; [JUndefined] is a field the body does
    not have. Numbers are the integers. *)
Inductive JsValue :=
  | JUndefined
  | JNull
  | JBool (b : bool)
  | JNumber (n : Z)
  | JString (s : string).

(** [!v] is false exactly when [js_truthy v] holds. *)
Definition js_truthy (v : JsValue) : bool :=
  match v with
  | JUndefined | JNull => false
  | JBool b => b
  | JNumber n => negb (Z.eqb n 0)
  | JString s => negb (String.eqb s "")
  end.

(** [typeof v] *)
Definition typeof (v : JsValue) : string :=
  match v with
  | JUndefined => "undefined"
  | JNull => "object"
  | JBool _ => "boolean"
  | JNumber _ => "number"
  | JString _ => "string"
  end.

(** Mongoose's cast of a filter value to the String type of a path:
    [value.toString()]; [null] and [undefined] are left as they are. *)
Definition castString (v : JsValue) : option string :=
  match v with
  | JString s => Some s
  | JNumber n => Some (pretty n)
  | JBool b => Some (if b then "true" else "false")
  | JNull | JUndefined => None
  end.

(** [s.split(sep)] for a one-character separator. *)
Fixpoint split (sep : ascii) (s : string) : list string :=
  match s with
  | EmptyString => [EmptyString]
  | String c s' =>
      if Ascii.eqb c sep then EmptyString :: split sep s'
      else match split sep s' with
           | w :: ws => String c w :: ws
           | [] => [String c EmptyString]
           end
  end.

(** A string with no space in it: a single field of [split " "]. *)
Definition one_word (s : string) : bool :=
  forallb (fun c => negb (Ascii.eqb c " ")) (list_ascii_of_string s).

(** ** JSON web tokens *)

(** The registered and private claims of the tokens this server signs. *)
Record Claims := mkClaims {
  c_id : ObjectId;
  c_email : option string;
  c_iat : Z;
  c_exp : Z
}.

Inductive Signature := HS256 (key : string) (signed : Claims).

Record Jwt := mkJwt { payload : Claims; signature : Signature }.

#[global] Instance Claims_eq_dec : EqDecision Claims.
Proof. solve_decision. Defined.
#[global] Instance Signature_eq_dec : EqDecision Signature.
Proof. solve_decision. Defined.
#[global] Instance Jwt_eq_dec : EqDecision Jwt.
Proof. solve_decision. Defined.

(** The token built by [jwt.sign] at wall-clock [clock] (milliseconds) for a
    lifetime of [expiresIn] seconds: [iat] is the clock in whole seconds and
    the signature is computed over the claims with [secret]. *)
Definition signed (id : ObjectId) (email : option string) (secret : string)
    (expiresIn : Z) (clock : Z) : Jwt :=
  let iat := Z.div clock 1000 in
  let c := mkClaims id email iat (iat + expiresIn) in
  mkJwt c (HS256 secret c).

(** ** The platform: what the process and the libraries provide *)

Class Platform := {
  (** [process.env.JWT_SECRET] *)
  env_JWT_SECRET : option string;
  (** compact serialization written by [jwt.sign] and read by [jwt.verify] *)
  jws_encode : Jwt -> string;
  jws_decode : string -> option Jwt;
  (** [bcrypt.hash(password, salt)] and [bcrypt.compare(password, hash)] *)
  bcrypt_hash : string -> string -> string;
  bcrypt_compare : string -> string -> bool;
  (** Mongoose's cast of a string to an [ObjectId] ([None]: CastError) *)
  castObjectId : string -> option N
}.

(** ** Responses *)

Inductive Body :=
  | Message (message : string)
  | TokenUser (token : string) (_id : ObjectId) (email : string)
  | UserBody (user : option (ObjectId * string))
  | NoteBody (note : ObjectId * Note)
  | NotesBody (l : list (ObjectId * Note)).

Record Response := mkResponse { status : nat; body : Body }.

#[global] Instance Body_eq_dec : EqDecision Body.
Proof. solve_decision. Defined.
#[global] Instance Response_eq_dec : EqDecision Response.
Proof. solve_decision. Defined.

(** [res.status(n).json({ message })] *)
Definition json_message (n : nat) (m : string) : Response :=
  mkResponse n (Message m).

(** [req.user] as bound by the gate. *)
Record AuthUser := mkAuthUser { au_id : ObjectId; au_email : option string }.

Inductive Gate :=
  | Next (user : AuthUser)
  | Respond (r : Response).

Section Server.
Context `{P : Platform}.

(** [const JWT_SECRET = process.env.JWT_SECRET || "notesflow_secret"] *)
Definition JWT_SECRET : string :=
  match env_JWT_SECRET with
  | Some s => if truthy (Some s) then s else "notesflow_secret"
  | None => "notesflow_secret"
  end.

(** [jwt.sign({ id, email }, secret, { expiresIn })], [expiresIn] in seconds,
    at wall-clock [clock] (milliseconds). *)
Definition jwt_sign (id : ObjectId) (email : option string) (secret : string)
    (expiresIn : Z) (clock : Z) : string :=
  jws_encode (signed id email secret expiresIn clock).

(** The serialization of [j] is a non-empty string that parses back to [j]. *)
Definition reads_back (j : Jwt) : bool :=
  bool_decide (jws_decode (jws_encode j) = Some j)
  && negb (String.eqb (jws_encode j) "").

Definition JsonWebTokenError (m : string) : JsError :=
  mkError "JsonWebTokenError" m.
Definition TokenExpiredError (m : string) : JsError :=
  mkError "TokenExpiredError" m.

(** [jwt.verify(token, secret)]: structure, then signature, then expiry. *)
Definition jwt_verify (clock : Z) (token : string) (secret : string)
    : Try Claims :=
  if String.eqb token "" then Throw (JsonWebTokenError "jwt must be provided")
  else match jws_decode token with
       | None => Throw (JsonWebTokenError "jwt malformed")
       | Some j =>
           if decide (signature j = HS256 secret (payload j)) then
             if Z.leb (c_exp (payload j)) (Z.div clock 1000)
             then Throw (TokenExpiredError "jwt expired")
             else Return (payload j)
           else Throw (JsonWebTokenError "invalid signature")
       end.

(** [generateToken(user)] *)
Definition generateToken (clock : Z) (uid : ObjectId) (u : User) : string :=
  jwt_sign uid (Some (u_email u)) JWT_SECRET 604800 clock.

(** [hashPassword(password)], with the salt of [bcrypt.genSalt(10)]. *)
Definition hashPassword (salt : string) (password : string) : string :=
  bcrypt_hash password salt.

(** [comparePassword(password, hash)]: [bcrypt.compare] rejects, with an
    [Error], an argument that is not a string. *)
Definition comparePassword (password : JsValue) (hash : string) : Try bool :=
  match password with
  | JString s => Return (bcrypt_compare s hash)
  | v => Throw (mkError "Error"
                  ("Illegal arguments: " +:+ typeof v +:+ ", string"))
  end.

(** [authMiddleware]: [Next] stands for the call of [next()] with
    [req.user] bound. *)
Definition authMiddleware (clock : Z) (authorization : option string) : Gate :=
  match authorization with
  | None => Respond (json_message 401 "Unauthorized")
  | Some auth =>
      if negb (truthy (Some auth)) || negb (String.prefix "Bearer " auth)
      then Respond (json_message 401 "Unauthorized")
      else
        let token := nth 1 (split " " auth) "" in
        match jwt_verify clock token JWT_SECRET with
        | Return decoded => Next (mkAuthUser (c_id decoded) (c_email decoded))
        | Throw err => Respond (json_message 401 "Invalid token")
        end
  end.

(** ** Mongoose *)

(** [Model.findOne(filter)]: a document of the collection that satisfies the
    filter, if there is one. *)
Definition findOne {D} (Q : N * D -> Prop) `{!forall kd, Decision (Q kd)}
    (m : gmap N D) : option (N * D) :=
  head (filter Q (map_to_list m)).

(** The filter [{ email }] on users. *)
Definition byEmail (email : string) (kd : N * User) : Prop :=
  u_email kd.2 = email.

(** The compound filter [{ _id: noteId, owner: req.user.id }] on notes. *)
Definition byIdAndOwner (noteId uid : ObjectId) (kd : N * Note) : Prop :=
  kd.1 = noteId /\ n_owner kd.2 = uid.

(** The filter [{ owner: req.user.id }] on notes. *)
Definition byOwner (uid : ObjectId) (kd : N * Note) : Prop :=
  n_owner kd.2 = uid.

(** The order of [.sort({ createdAt: -1 })]: newest first. *)
Definition newerFirst (a b : N * Note) : Prop :=
  n_createdAt b.2 <= n_createdAt a.2.

#[global] Instance byEmail_dec e kd : Decision (byEmail e kd).
Proof. unfold byEmail. apply _. Defined.
#[global] Instance byIdAndOwner_dec i o kd : Decision (byIdAndOwner i o kd).
Proof. unfold byIdAndOwner. apply _. Defined.
#[global] Instance byOwner_dec o kd : Decision (byOwner o kd).
Proof. unfold byOwner. apply _. Defined.
#[global] Instance newerFirst_dec : RelDecision newerFirst.
Proof. intros a b. unfold newerFirst. apply _. Defined.

(** [Note.find({ owner }).sort({ createdAt: -1 })] *)
Definition findSorted (uid : ObjectId) (m : gmap N Note) : list (N * Note) :=
  merge_sort newerFirst (filter (byOwner uid) (map_to_list m)).

Definition duplicateKey : JsError :=
  mkError "MongoServerError" "E11000 duplicate key error".
Definition castError : JsError :=
  mkError "CastError" "Cast to ObjectId failed".

(** [user.save()] of a new document: the insert fails on a used [_id] and on
    the unique index of [email]. *)
Definition insertUser (id : ObjectId) (u : User) (db : DB) : Try DB :=
  match users db !! id, findOne (byEmail (u_email u)) (users db) with
  | None, None => Return (mkDB (<[id := u]> (users db)) (notes db))
  | _, _ => Throw duplicateKey
  end.

(** [note.save()] of a new document. *)
Definition insertNote (id : ObjectId) (n : Note) (db : DB) : Try DB :=
  match notes db !! id with
  | None => Return (mkDB (users db) (<[id := n]> (notes db)))
  | Some _ => Throw duplicateKey
  end.

(** [doc.save()] of a document that was read from the collection. *)
Definition updateUser (id : ObjectId) (u : User) (db : DB) : DB :=
  mkDB (<[id := u]> (users db)) (notes db).
Definition updateNote (id : ObjectId) (n : Note) (db : DB) : DB :=
  mkDB (users db) (<[id := n]> (notes db)).

(** [Note.findOneAndDelete(filter)] *)
Definition findOneAndDelete (Q : N * Note -> Prop)
    `{!forall kd, Decision (Q kd)} (db : DB) : option (N * Note) * DB :=
  match findOne Q (notes db) with
  | Some kd => (Some kd, mkDB (users db) (delete kd.1 (notes db)))
  | None => (None, db)
  end.

(** ** Route handlers *)

(** What a handler draws from its environment while it runs. *)
Record Env := mkEnv {
  date_now : Z;       (* Date.now(), milliseconds *)
  gen_salt : string;  (* bcrypt.genSalt(10) *)
  new_id : ObjectId   (* the _id of a document built with new *)
}.

(** The string of a field that passed the [!field] test. *)
Definition str (v : option string) : string := default "" v.

(** POST /api/auth/register *)
Definition register (env : Env) (email password : option string) (db : DB)
    : Response * DB :=
  if negb (truthy email) || negb (truthy password)
  then (json_message 400 "Email and password required", db)
  else
    let attempt : Try (Response * DB) :=
      match findOne (byEmail (str email)) (users db) with
      | Some _ => Return (json_message 409 "User already exists", db)
      | None =>
          let hashed := hashPassword (gen_salt env) (str password) in
          let user := mkUser (str email) hashed in
          db' ← insertUser (new_id env) user db;
          let token := generateToken (date_now env) (new_id env) user in
          Return (mkResponse 201 (TokenUser token (new_id env) (u_email user)),
                  db')
      end in
    match attempt with
    | Return r => r
    | Throw err => (json_message 500 (err_message err), db)
    end.

(** [User.findOne({ email })] for the [email] of a request body: the value
    is cast to a string; no document has a null email. *)
Definition findOneByEmail (email : JsValue) (m : gmap N User)
    : option (N * User) :=
  match castString email with
  | Some e => findOne (byEmail e) m
  | None => None
  end.

(** POST /api/auth/login *)
Definition login (env : Env) (email password : JsValue) (db : DB)
    : Response * DB :=
  if negb (js_truthy email) || negb (js_truthy password)
  then (json_message 400 "Email and password required", db)
  else
    let attempt : Try (Response * DB) :=
      match findOneByEmail email (users db) with
      | None => Return (json_message 401 "Invalid credentials", db)
      | Some (uid, user) =>
          ok ← comparePassword password (u_password user);
          if negb ok
          then Return (json_message 401 "Invalid credentials", db)
          else
            let token := generateToken (date_now env) uid user in
            Return (mkResponse 200 (TokenUser token uid (u_email user)), db)
      end in
    match attempt with
    | Return r => r
    | Throw err => (json_message 500 (err_message err), db)
    end.

(** The reset token of POST /api/auth/forgot-password:
    [jwt.sign({ id: user._id }, JWT_SECRET, { expiresIn: "1h" })]. *)
Definition resetTokenFor (clock : Z) (uid : ObjectId) : string :=
  jwt_sign uid None JWT_SECRET 3600 clock.

(** POST /api/auth/forgot-password; the second component is what the
    handler writes with [console.log]. *)
Definition forgotPassword (env : Env) (email : option string) (db : DB)
    : Response * list string :=
  if negb (truthy email) then (json_message 400 "Email required", [])
  else
    match findOne (byEmail (str email)) (users db) with
    | None =>
        (json_message 200 "If the email exists, instructions will be sent", [])
    | Some (uid, user) =>
        let resetToken := resetTokenFor (date_now env) uid in
        (json_message 200 "If the email exists, instructions will be sent",
         ["Reset token for " +:+ str email +:+ ": " +:+ resetToken])
    end.

(** POST /api/auth/reset-password *)
Definition resetPassword (env : Env) (token password : option string)
    (db : DB) : Response * DB :=
  if negb (truthy token) || negb (truthy password)
  then (json_message 400 "Token and password required", db)
  else
    let attempt : Try (Response * DB) :=
      decoded ← jwt_verify (date_now env) (str token) JWT_SECRET;
      match users db !! c_id decoded with
      | None => Return (json_message 404 "User not found", db)
      | Some user =>
          let hashed := hashPassword (gen_salt env) (str password) in
          let user' := mkUser (u_email user) hashed in
          Return (json_message 200 "Password updated successfully",
                  updateUser (c_id decoded) user' db)
      end in
    match attempt with
    | Return r => r
    | Throw err =>
        if String.eqb (err_name err) "JsonWebTokenError"
        then (json_message 401 "Invalid or expired token", db)
        else (json_message 500 "Could not reset password", db)
    end.

(** A route guarded by [authMiddleware]. *)
Definition guarded (clock : Z) (authorization : option string)
    (handler : AuthUser -> DB -> Response * DB) (db : DB) : Response * DB :=
  match authMiddleware clock authorization with
  | Next user => handler user db
  | Respond r => (r, db)
  end.

(** GET /api/auth/me, after the gate *)
Definition me (user : AuthUser) (db : DB) : Response * DB :=
  (mkResponse 200
     (UserBody ((fun u => (au_id user, u_email u)) <$> users db !! au_id user)),
   db).

(** GET /api/notes, after the gate *)
Definition listNotes (user : AuthUser) (db : DB) : Response * DB :=
  (mkResponse 200 (NotesBody (findSorted (au_id user) (notes db))), db).

(** POST /api/notes, after the gate *)
Definition createNote (env : Env) (title content : option string)
    (user : AuthUser) (db : DB) : Response * DB :=
  if negb (truthy title) || negb (truthy content)
  then (json_message 400 "Title and content required", db)
  else
    let note := mkNote title content (au_id user) (date_now env) in
    match insertNote (new_id env) note db with
    | Return db' => (mkResponse 201 (NoteBody (new_id env, note)), db')
    | Throw error => (json_message 400 (err_message error), db)
    end.

(** PUT /api/notes/:id, after the gate *)
Definition updateNoteById (id : string) (title content : option string)
    (user : AuthUser) (db : DB) : Response * DB :=
  let attempt : Try (Response * DB) :=
    noteId ← from_option Return (Throw castError) (castObjectId id);
    match findOne (byIdAndOwner noteId (au_id user)) (notes db) with
    | None => Return (json_message 404 "Note not found", db)
    | Some (k, note) =>
        let note' := mkNote title content (n_owner note) (n_createdAt note) in
        Return (mkResponse 200 (NoteBody (k, note')), updateNote k note' db)
    end in
  match attempt with
  | Return r => r
  | Throw error => (json_message 500 (err_message error), db)
  end.

(** DELETE /api/notes/:id, after the gate *)
Definition deleteNoteById (id : string) (user : AuthUser) (db : DB)
    : Response * DB :=
  let attempt : Try (Response * DB) :=
    noteId ← from_option Return (Throw castError) (castObjectId id);
    match findOneAndDelete (byIdAndOwner noteId (au_id user)) db with
    | (None, db') => Return (json_message 404 "Note not found", db')
    | (Some _, db') => Return (json_message 200 "Note deleted successfully", db')
    end in
  match attempt with
  | Return r => r
  | Throw error => (json_message 500 (err_message error), db)
  end.

End Server.

(** ** The route table *)

(** A request to one of the API routes of [server.js], with the parts of it
    the handler reads: the body fields, the Authorization header of a
    guarded route and the [:id] path parameter. *)
Inductive Request :=
  | POST_register (email password : option string)
  | POST_login (email password : JsValue)
  | POST_forgot_password (email : option string)
  | POST_reset_password (token password : option string)
  | GET_me (authorization : option string)
  | GET_notes (authorization : option string)
  | POST_notes (authorization : option string) (title content : option string)
  | PUT_note (authorization : option string) (id : string)
      (title content : option string)
  | DELETE_note (authorization : option string) (id : string).

Section Routes.
Context `{P : Platform}.

(** [app.post(...)], [app.get(...)], [app.put(...)], [app.delete(...)]: the
    five note and identity routes run behind [authMiddleware]. *)
Definition route (env : Env) (req : Request) (db : DB) : Response * DB :=
  match req with
  | POST_register email password => register env email password db
  | POST_login email password => login env email password db
  | POST_forgot_password email => ((forgotPassword env email db).1, db)
  | POST_reset_password token password => resetPassword env token password db
  | GET_me a => guarded (date_now env) a me db
  | GET_notes a => guarded (date_now env) a listNotes db
  | POST_notes a title content =>
      guarded (date_now env) a (createNote env title content) db
  | PUT_note a id title content =>
      guarded (date_now env) a (updateNoteById id title content) db
  | DELETE_note a id => guarded (date_now env) a (deleteNoteById id) db
  end.

(** The Authorization header of a request to a guarded route. *)
Definition authorization_of (req : Request) : option (option string) :=
  match req with
  | GET_me a | GET_notes a | POST_notes a _ _ | PUT_note a _ _ _
  | DELETE_note a _ => Some a
  | _ => None
  end.

(** The identity the gate binds for a request, if the request goes to a
    guarded route and passes the gate. *)
Definition actor (env : Env) (req : Request) : option AuthUser :=
  match authorization_of req with
  | Some a =>
      match authMiddleware (date_now env) a with
      | Next user => Some user
      | Respond _ => None
      end
  | None => None
  end.

End Routes.

(** The ways one request can change the database, [who] being the identity
    the gate bound for it: not at all, by one new identity whose [_id] and
    email were unused, by a new password for an identity, or -- for the
    bound identity only -- by one new note it owns, by a new title and
    content for one of its notes, or by the removal of one of its notes. *)
Inductive Change (who : option AuthUser) (db : DB) : DB -> Prop :=
  | Unchanged : Change who db db
  | UserAdded uid u :
      users db !! uid = None ->
      (forall k u', users db !! k = Some u' -> u_email u' <> u_email u) ->
      Change who db (mkDB (<[uid := u]> (users db)) (notes db))
  | PasswordSet uid u hashed :
      users db !! uid = Some u ->
      Change who db
        (mkDB (<[uid := mkUser (u_email u) hashed]> (users db)) (notes db))
  | NoteAdded user k n :
      who = Some user -> notes db !! k = None -> n_owner n = au_id user ->
      Change who db (mkDB (users db) (<[k := n]> (notes db)))
  | NoteEdited user k n title content :
      who = Some user -> notes db !! k = Some n -> n_owner n = au_id user ->
      Change who db
        (mkDB (users db)
           (<[k := mkNote title content (n_owner n) (n_createdAt n)]>
              (notes db)))
  | NoteDeleted user k n :
      who = Some user -> notes db !! k = Some n -> n_owner n = au_id user ->
      Change who db (mkDB (users db) (delete k (notes db))).

(** No two identities share an email (what the unique index on [email]
    maintains). *)
Definition unique_emails (db : DB) : Prop :=
  forall uid1 u1 uid2 u2,
    users db !! uid1 = Some u1 -> users db !! uid2 = Some u2 ->
    u_email u1 = u_email u2 -> uid1 = uid2.

(** ** A platform to run the handlers on

    Stand-ins that compute: tokens are printed field by field and read back
    among the tokens of a given list; the hash keeps the salt in front, as
    bcrypt does, and [compare] hashes again with the salt it finds there; an
    [ObjectId] is written as 24 hexadecimal digits. *)
Module Demo.

Definition hex_digit (c : ascii) : option N :=
  let n := N_of_ascii c in
  if (48 <=? n)%N && (n <=? 57)%N then Some (n - 48)%N
  else if (97 <=? n)%N && (n <=? 102)%N then Some (n - 87)%N
  else if (65 <=? n)%N && (n <=? 70)%N then Some (n - 55)%N
  else None.

Fixpoint hex_value (acc : N) (s : string) : option N :=
  match s with
  | EmptyString => Some acc
  | String c s' =>
      match hex_digit c with
      | Some d => hex_value (16 * acc + d)%N s'
      | None => None
      end
  end.

Definition cast (s : string) : option N :=
  if Nat.eqb (String.length s) 24 then hex_value 0%N s else None.

Definition hash (password salt : string) : string :=
  "$2a$10$" +:+ salt +:+ password.

Definition compare (password hashed : string) : bool :=
  String.eqb (hash password (substring 7 22 hashed)) hashed.

Definition encode_claims (c : Claims) : string :=
  pretty (c_id c) +:+ "," +:+ default "" (c_email c) +:+ ","
    +:+ pretty (c_iat c) +:+ "," +:+ pretty (c_exp c).

Definition encode (j : Jwt) : string :=
  match signature j with
  | HS256 key signed =>
      "HS256." +:+ encode_claims (payload j) +:+ "."
        +:+ key +:+ ":" +:+ encode_claims signed
  end.

Definition decode (known : list Jwt) (s : string) : option Jwt :=
  List.find (fun j => String.eqb (encode j) s) known.

Definition platform (secret : option string) (known : list Jwt) : Platform :=
  {| env_JWT_SECRET := secret;
     jws_encode := encode;
     jws_decode := decode known;
     bcrypt_hash := hash;
     bcrypt_compare := compare;
     castObjectId := cast |}.

End Demo.

(** Strict version of [newerFirst]. *)
Definition strictlyNewerFirst (a b : N * Note) : Prop :=
  n_createdAt b.2 < n_createdAt a.2.

(** ** Sample data *)
Module Sample.

Definition alice : ObjectId := 161%N.
Definition bob : ObjectId := 178%N.
Definition alice_doc : User :=
  mkUser "alice@example.org" (Demo.hash "correct horse" "saltsaltsaltsaltsaltAA").
Definition bob_doc : User :=
  mkUser "bob@example.org" (Demo.hash "battery staple" "saltsaltsaltsaltsaltBB").

(** Alice's reset token requested at 1000000 ms, her session token of the
    same instant, and a token signed with another key. *)
Definition reset_jwt : Jwt := signed alice None "notesflow_secret" 3600 1000000.
Definition session_jwt : Jwt :=
  signed alice (Some "alice@example.org") "notesflow_secret" 604800 1000000.
Definition forged_jwt : Jwt := signed alice None "guess" 3600 1000000.
Definition carol_jwt : Jwt :=
  signed 195%N (Some "carol@example.org") "notesflow_secret" 604800 5000000.

Definition platform : Platform :=
  Demo.platform None [reset_jwt; session_jwt; forged_jwt; carol_jwt].

Definition note1 : Note := mkNote (Some "todo") (Some "milk") alice 2000000.
Definition note2 : Note := mkNote (Some "idea") (Some "tea") alice 2000000.
Definition note3 : Note := mkNote (Some "plan") (Some "run") bob 3000000.

Definition db0 : DB :=
  mkDB (<[alice := alice_doc]> (<[bob := bob_doc]> ∅))
       (<[1%N := note1]> (<[2%N := note2]> (<[3%N := note3]> ∅))).

Definition id_of_note1 : string := "000000000000000000000001".

(** The serialization of [reset_jwt] on this platform. *)
Definition reset_token : string :=
  "HS256.161,,1000,4600.notesflow_secret:161,,1000,4600".

Definition alice_user : AuthUser :=
  mkAuthUser alice (Some "alice@example.org").

(** Two notes created by Alice within the same millisecond. *)
Definition db_same_ms : DB :=
  (createNote (mkEnv 2000000 "" 2%N) (Some "idea") (Some "tea") alice_user
     (createNote (mkEnv 2000000 "" 1%N) (Some "todo") (Some "milk") alice_user
        (mkDB (users db0) ∅)).2).2.

(** The store after Alice's first reset, to "first" at second 2000. *)
Definition db_after_first_reset : DB :=
  (@resetPassword platform (mkEnv 2000000 "saltsaltsaltsaltsaltCC" 0%N)
     (Some reset_token) (Some "first") db0).2.

End Sample.

(** * Properties *)

(** ** Queries on a collection *)

Section Queries.
Context {D : Type} (Q : N * D -> Prop) `{!forall kd, Decision (Q kd)}.
Implicit Types (m : gmap N D) (k : N) (d : D).

Lemma findOne_Some m kd :
  findOne Q m = Some kd -> m !! kd.1 = Some kd.2 /\ Q kd.
Proof.
  unfold findOne. intros Hhd.
  apply head_Some_elem_of, list_elem_of_filter in Hhd as [HQ Hin].
  split; [by apply elem_of_map_to_list' | done].
Qed.

Lemma findOne_None m :
  findOne Q m = None <-> forall k d, m !! k = Some d -> ~ Q (k, d).
Proof.
  unfold findOne. rewrite head_None. split.
  - intros Hnil k d Hk HQ.
    eapply filter_nil_not_elem_of; [exact Hnil | exact HQ |].
    by apply elem_of_map_to_list.
  - intros Hno. apply elem_of_nil_inv. intros [k d] Hin.
    apply list_elem_of_filter in Hin as [HQ Hin].
    apply elem_of_map_to_list in Hin. by eapply Hno.
Qed.

(** When a single document satisfies the filter, it is the one found. *)
Lemma findOne_unique m k d :
  m !! k = Some d -> Q (k, d) ->
  (forall k' d', m !! k' = Some d' -> Q (k', d') -> (k', d') = (k, d)) ->
  findOne Q m = Some (k, d).
Proof.
  intros Hk HQ Huniq.
  destruct (findOne Q m) as [[k' d']|] eqn:E.
  - apply findOne_Some in E as [Hk' HQ']. f_equal. by apply Huniq.
  - exfalso. eapply findOne_None; eauto.
Qed.

End Queries.

(** A filter that fixes [_id] is a lookup by key followed by the test of
    the remaining fields. *)
Lemma findOne_byIdAndOwner (m : gmap N Note) (noteId uid : N) :
  findOne (byIdAndOwner noteId uid) m =
  match m !! noteId with
  | Some n => if decide (n_owner n = uid) then Some (noteId, n) else None
  | None => None
  end.
Proof.
  destruct (m !! noteId) as [n|] eqn:Hn.
  - destruct (decide (n_owner n = uid)) as [Ho|Ho].
    + apply findOne_unique; [done | by split |].
      intros k' d' Hk' [Hid _]. simpl in Hid. subst k'.
      rewrite Hn in Hk'. by inversion Hk'.
    + apply findOne_None. intros k d Hk [Hid Hown]. simpl in *. subst k.
      rewrite Hn in Hk. inversion Hk. by subst.
  - apply findOne_None. intros k d Hk [Hid _]. simpl in Hid. subst k.
    by rewrite Hn in Hk.
Qed.

(** ** Strings *)

Lemma split_one_word (s : string) :
  one_word s = true -> split " " s = [s].
Proof.
  unfold one_word. induction s as [|c s IH]; simpl; [done|].
  intros [Hc Hs]%andb_prop. apply negb_true_iff in Hc. rewrite Hc.
  by rewrite IH.
Qed.

Lemma bearer_token (s : string) :
  one_word s = true -> nth 1 (split " " ("Bearer " +:+ s)) "" = s.
Proof. intros Hs. simpl. by rewrite split_one_word. Qed.

Lemma bearer_shape (s : string) :
  negb (truthy (Some ("Bearer " +:+ s)))
  || negb (String.prefix "Bearer " ("Bearer " +:+ s)) = false.
Proof. destruct s; reflexivity. Qed.

Lemma truthy_Some (s : string) : truthy (Some s) = true <-> s <> "".
Proof.
  simpl. rewrite negb_true_iff. split.
  - intros H ->. by rewrite String.eqb_refl in H.
  - intros H. by apply String.eqb_neq.
Qed.

(** ** Tokens *)

Section TokenFacts.
Context `{P : Platform}.

(** Verifying a token this server signed: it is accepted until its expiry
    and refused as expired from then on. *)
Lemma jwt_verify_signed id email secret expiresIn clock clock' :
  reads_back (signed id email secret expiresIn clock) = true ->
  jwt_verify clock' (jwt_sign id email secret expiresIn clock) secret =
  if Z.leb (Z.div clock 1000 + expiresIn) (Z.div clock' 1000)
  then Throw (TokenExpiredError "jwt expired")
  else Return (payload (signed id email secret expiresIn clock)).
Proof.
  unfold reads_back, jwt_verify, jwt_sign.
  intros [Hdec Hne]%andb_prop.
  apply bool_decide_eq_true in Hdec. apply negb_true_iff in Hne.
  rewrite Hne, Hdec. simpl.
  by rewrite decide_True.
Qed.

Lemma authMiddleware_bearer clock token :
  one_word token = true ->
  authMiddleware clock (Some ("Bearer " +:+ token)) =
  match jwt_verify clock token JWT_SECRET with
  | Return decoded => Next (mkAuthUser (c_id decoded) (c_email decoded))
  | Throw _ => Respond (json_message 401 "Invalid token")
  end.
Proof.
  intros Hw. unfold authMiddleware.
  rewrite bearer_token, bearer_shape by done. reflexivity.
Qed.

End TokenFacts.

(** ** C1: a reset token at the gate *)

(** C1 (amended): a reset token issued at [clock] for [uid], presented as
    the bearer credential at [clock'], passes the gate as long as it has
    not expired: the gate binds [{ id: uid, email: undefined }] and the
    guarded handler runs. From its expiry on (one hour after issue, in
    whole seconds) the gate answers 401 "Invalid token". *)
Theorem reset_token_at_gate `{P : Platform} (clock clock' : Z) (uid : N) :
  reads_back (signed uid None JWT_SECRET 3600 clock) = true ->
  one_word (resetTokenFor clock uid) = true ->
  (Z.div clock' 1000 < Z.div clock 1000 + 3600 ->
     authMiddleware clock' (Some ("Bearer " +:+ resetTokenFor clock uid))
       = Next (mkAuthUser uid None)
     /\ forall handler db,
          guarded clock' (Some ("Bearer " +:+ resetTokenFor clock uid))
            handler db = handler (mkAuthUser uid None) db)
  /\ (Z.div clock 1000 + 3600 <= Z.div clock' 1000 ->
        authMiddleware clock' (Some ("Bearer " +:+ resetTokenFor clock uid))
          = Respond (json_message 401 "Invalid token")).
Proof.
  intros Hrb Hw.
  assert (Hgate := authMiddleware_bearer clock' _ Hw).
  unfold resetTokenFor in *.
  rewrite (jwt_verify_signed _ _ _ _ _ clock' Hrb) in Hgate.
  split; intros Ht.
  - assert (Hleb : Z.leb (Z.div clock 1000 + 3600) (Z.div clock' 1000) = false)
      by (apply Z.leb_gt; lia).
    rewrite Hleb in Hgate.
    split; [exact Hgate|]. intros handler db. unfold guarded.
    rewrite Hgate. reflexivity.
  - assert (Hleb : Z.leb (Z.div clock 1000 + 3600) (Z.div clock' 1000) = true)
      by (apply Z.leb_le; lia).
    by rewrite Hleb in Hgate.
Qed.

Lemma reset_token_at_gate_witness :
  @authMiddleware Sample.platform 2000000
    (Some ("Bearer " +:+ @resetTokenFor Sample.platform 1000000 Sample.alice))
  = Next (mkAuthUser Sample.alice None).
Proof.
  destruct (@reset_token_at_gate Sample.platform 1000000 2000000 Sample.alice)
    as [Hlive _].
  - vm_compute. reflexivity.
  - vm_compute. reflexivity.
  - apply Hlive. vm_compute. reflexivity.
Defined.

Section C1_on_sample.
#[local] Existing Instance Sample.platform.

(** C1, as stated, fails: the reset token that forgot-password logs for
    Alice, sent as [Authorization: Bearer ...] one thousand seconds later,
    passes [authMiddleware], which binds Alice's id (and no email), and the
    guarded note listing answers 200 with her notes. *)
Lemma reset_token_opens_gate :
  forgotPassword (mkEnv 1000000 "" 0%N) (Some "alice@example.org") Sample.db0
    = (json_message 200 "If the email exists, instructions will be sent",
       ["Reset token for alice@example.org: " +:+ Sample.reset_token])
  /\ authMiddleware 2000000 (Some ("Bearer " +:+ Sample.reset_token))
     = Next (mkAuthUser Sample.alice None)
  /\ status (guarded 2000000 (Some ("Bearer " +:+ Sample.reset_token))
               listNotes Sample.db0).1 = 200%nat.
Proof. vm_compute. done. Qed.

End C1_on_sample.

(** ** C6: what a refused request is told *)

(** C6 (amended): a request whose Authorization header is absent or does
    not start with "Bearer " is refused with 401
    [{ message: "Unauthorized" }]; a request whose header has that shape and
    whose token [jwt.verify] rejects is refused with 401
    [{ message: "Invalid token" }], whatever [jwt.verify] throws (malformed,
    wrong signature, expired); and the gate refuses in no other way. The
    answer tells a header failure from a token failure, but not which check
    of the token failed. *)
Theorem gate_refusal `{P : Platform} (clock : Z)
    (authorization : option string) :
  (authorization = None
   \/ (exists auth, authorization = Some auth
          /\ String.prefix "Bearer " auth = false) ->
   authMiddleware clock authorization
   = Respond (json_message 401 "Unauthorized"))
  /\ (forall auth err,
        authorization = Some auth ->
        String.prefix "Bearer " auth = true ->
        jwt_verify clock (nth 1 (split " " auth) "") JWT_SECRET = Throw err ->
        authMiddleware clock authorization
        = Respond (json_message 401 "Invalid token"))
  /\ (forall r,
        authMiddleware clock authorization = Respond r ->
        status r = 401%nat
        /\ ((authorization = None
             \/ exists auth, authorization = Some auth
                  /\ String.prefix "Bearer " auth = false)
            /\ r = json_message 401 "Unauthorized"
            \/ (exists auth err, authorization = Some auth
                  /\ String.prefix "Bearer " auth = true
                  /\ jwt_verify clock (nth 1 (split " " auth) "") JWT_SECRET
                     = Throw err)
               /\ r = json_message 401 "Invalid token")).
Proof.
  assert (Hshape : forall auth, String.prefix "Bearer " auth = true ->
                                truthy (Some auth) = true).
  { intros auth Hpre. destruct auth; [discriminate Hpre | reflexivity]. }
  split; [|split].
  - intros [-> | (auth & -> & Hpre)]; [reflexivity|].
    unfold authMiddleware. by rewrite Hpre, orb_true_r.
  - intros auth err -> Hpre Hv. unfold authMiddleware.
    rewrite (Hshape auth Hpre), Hpre, Hv. reflexivity.
  - unfold authMiddleware. intros r Hr.
    destruct authorization as [auth|].
    + destruct (String.prefix "Bearer " auth) eqn:Hpre.
      * rewrite (Hshape auth Hpre) in Hr. simpl in Hr.
        destruct (jwt_verify clock _ JWT_SECRET) as [c|err] eqn:Hv;
          [discriminate Hr|].
        inversion Hr; subst r. split; [reflexivity|].
        right. split; [|reflexivity]. by exists auth, err.
      * rewrite orb_true_r in Hr. inversion Hr; subst r.
        split; [reflexivity|]. left. split; [|reflexivity].
        right. by exists auth.
    + inversion Hr; subst r. split; [reflexivity|]. left. by split; [left|].
Qed.

Section C6_on_sample.
#[local] Existing Instance Sample.platform.

Lemma gate_refusal_witness :
  authMiddleware 2000000 (Some "Basic YWxpY2U6c2VjcmV0")
    = Respond (json_message 401 "Unauthorized")
  /\ authMiddleware 2000000 (Some "Bearer not.a.token")
     = Respond (json_message 401 "Invalid token")
  /\ authMiddleware 5000000 (Some ("Bearer " +:+ Sample.reset_token))
     = Respond (json_message 401 "Invalid token").
Proof.
  split; [|split].
  - apply (proj1 (gate_refusal 2000000 (Some "Basic YWxpY2U6c2VjcmV0"))).
    right. eexists. split; [reflexivity|]. vm_compute. reflexivity.
  - apply (proj1 (proj2 (gate_refusal 2000000 (Some "Bearer not.a.token")))
             "Bearer not.a.token"
             (JsonWebTokenError "jwt malformed")).
    + reflexivity.
    + vm_compute. reflexivity.
    + vm_compute. reflexivity.
  - apply (proj1 (proj2 (gate_refusal 5000000
                           (Some ("Bearer " +:+ Sample.reset_token))))
             ("Bearer " +:+ Sample.reset_token)
             (TokenExpiredError "jwt expired")).
    + reflexivity.
    + vm_compute. reflexivity.
    + vm_compute. reflexivity.
Defined.

(** C6, as stated, fails: a request without the header and a request with
    a token that does not verify are both refused, with different bodies. *)
Lemma gate_refusals_differ :
  authMiddleware 2000000 None = Respond (json_message 401 "Unauthorized")
  /\ authMiddleware 2000000 (Some "Bearer not.a.token")
     = Respond (json_message 401 "Invalid token")
  /\ authMiddleware 2000000 None
     <> authMiddleware 2000000 (Some "Bearer not.a.token").
Proof. vm_compute. split; [done|]. split; [done|]. discriminate. Qed.

End C6_on_sample.

(** ** Completing a reset *)

Section ResetFacts.
Context `{P : Platform}.

(** The claims [jwt.verify] returns for a token do not depend on when it
    is verified. *)
Lemma jwt_verify_claims clock clock' token secret c c' :
  jwt_verify clock token secret = Return c ->
  jwt_verify clock' token secret = Return c' -> c = c'.
Proof.
  unfold jwt_verify. destruct (String.eqb token ""); [discriminate|].
  destruct (jws_decode token) as [j|]; [|discriminate].
  destruct (decide _); [|discriminate].
  do 2 (destruct (Z.leb _ _); [discriminate|]). congruence.
Qed.

(** The token verifies and the identity exists: the password is replaced. *)
Lemma resetPassword_verified env token password db c user :
  truthy token = true -> truthy password = true ->
  jwt_verify (date_now env) (str token) JWT_SECRET = Return c ->
  users db !! c_id c = Some user ->
  resetPassword env token password db =
  (json_message 200 "Password updated successfully",
   updateUser (c_id c)
     (mkUser (u_email user) (hashPassword (gen_salt env) (str password))) db).
Proof.
  intros Ht Hp Hv Hu. unfold resetPassword.
  rewrite Ht, Hp, Hv. simpl. by rewrite Hu.
Qed.

(** [jwt.verify] throws: the answer is 401 exactly when the error is named
    "JsonWebTokenError", and 500 otherwise. *)
Lemma resetPassword_thrown env token password db err :
  truthy token = true -> truthy password = true ->
  jwt_verify (date_now env) (str token) JWT_SECRET = Throw err ->
  resetPassword env token password db =
  if String.eqb (err_name err) "JsonWebTokenError"
  then (json_message 401 "Invalid or expired token", db)
  else (json_message 500 "Could not reset password", db).
Proof.
  intros Ht Hp Hv. unfold resetPassword. by rewrite Ht, Hp, Hv.
Qed.

(** A malformed token and a token with a wrong signature are answered 401. *)
Lemma resetPassword_malformed env token password db :
  truthy token = true -> truthy password = true ->
  jws_decode (str token) = None ->
  resetPassword env token password db
  = (json_message 401 "Invalid or expired token", db).
Proof.
  intros Ht Hp Hd.
  rewrite (resetPassword_thrown _ _ _ _ (JsonWebTokenError "jwt malformed"));
    try done.
  unfold jwt_verify. rewrite Hd.
  destruct token as [t|]; [|discriminate Ht]. simpl in *.
  apply negb_true_iff in Ht. by rewrite Ht.
Qed.

Lemma resetPassword_bad_signature env token password db j :
  truthy token = true -> truthy password = true ->
  jws_decode (str token) = Some j ->
  signature j <> HS256 JWT_SECRET (payload j) ->
  resetPassword env token password db
  = (json_message 401 "Invalid or expired token", db).
Proof.
  intros Ht Hp Hd Hs.
  rewrite (resetPassword_thrown _ _ _ _ (JsonWebTokenError "invalid signature"));
    try done.
  unfold jwt_verify. rewrite Hd.
  destruct token as [t|]; [|discriminate Ht]. simpl in *.
  apply negb_true_iff in Ht. rewrite Ht. by rewrite decide_False.
Qed.

(** A well-signed token past its expiry is answered 500: [jwt.verify]
    throws a TokenExpiredError, whose name is not "JsonWebTokenError". *)
Lemma resetPassword_expired env token password db j :
  truthy token = true -> truthy password = true ->
  jws_decode (str token) = Some j ->
  signature j = HS256 JWT_SECRET (payload j) ->
  c_exp (payload j) <= Z.div (date_now env) 1000 ->
  resetPassword env token password db
  = (json_message 500 "Could not reset password", db).
Proof.
  intros Ht Hp Hd Hs He.
  rewrite (resetPassword_thrown _ _ _ _ (TokenExpiredError "jwt expired"));
    try done.
  unfold jwt_verify. rewrite Hd.
  destruct token as [t|]; [|discriminate Ht]. simpl in *.
  apply negb_true_iff in Ht. rewrite Ht. rewrite decide_True by done.
  by apply Z.leb_le in He as ->.
Qed.

End ResetFacts.

(** ** C2: an expired reset token *)

Section C2_on_sample.
#[local] Existing Instance Sample.platform.

(** C2 at an expired token: Alice's reset token, issued at second 1000 and
    valid until second 4600, is presented at second 4600. The handler
    answers 500 "Could not reset password", not 401, and stores nothing. *)
Theorem expired_reset_token_gets_500 :
  resetPassword (mkEnv 4600000 "saltsaltsaltsaltsaltCC" 0%N)
    (Some Sample.reset_token) (Some "new password") Sample.db0
  = (json_message 500 "Could not reset password", Sample.db0).
Proof.
  apply (resetPassword_expired _ _ _ _ Sample.reset_jwt);
    vm_compute; first [reflexivity | discriminate].
Qed.

(** The same token one second earlier is accepted. *)
Example live_reset_token_gets_200 :
  (resetPassword (mkEnv 4599999 "saltsaltsaltsaltsaltCC" 0%N)
     (Some Sample.reset_token) (Some "new password") Sample.db0).1
  = json_message 200 "Password updated successfully".
Proof. vm_compute. reflexivity. Qed.

(** A token signed with another key is answered 401. *)
Example forged_reset_token_gets_401 :
  resetPassword (mkEnv 2000000 "saltsaltsaltsaltsaltCC" 0%N)
    (Some (Demo.encode Sample.forged_jwt)) (Some "new password") Sample.db0
  = (json_message 401 "Invalid or expired token", Sample.db0).
Proof.
  apply (resetPassword_bad_signature _ _ _ _ Sample.forged_jwt);
    vm_compute; first [reflexivity | discriminate].
Qed.

End C2_on_sample.

(** ** C5: presenting a reset token twice *)

(** C5 (amended): using a reset token does not invalidate it. After a
    complete-reset call that succeeded with a token, a second call with the
    same token, made while the token still verifies, succeeds again: it
    answers 200 and stores the hash of the password it was given. *)
Theorem reset_token_replay `{P : Platform} (env1 env2 : Env)
    (token password1 password2 : option string) (db db1 : DB) (c : Claims) :
  resetPassword env1 token password1 db
    = (json_message 200 "Password updated successfully", db1) ->
  truthy password2 = true ->
  jwt_verify (date_now env2) (str token) JWT_SECRET = Return c ->
  exists user,
    users db1 !! c_id c = Some user
    /\ resetPassword env2 token password2 db1
       = (json_message 200 "Password updated successfully",
          updateUser (c_id c)
            (mkUser (u_email user)
               (hashPassword (gen_salt env2) (str password2))) db1).
Proof.
  intros H1 Hp2 Hv2.
  assert (truthy token = true /\ exists c1 user1,
             jwt_verify (date_now env1) (str token) JWT_SECRET = Return c1
             /\ db1 = updateUser (c_id c1) user1 db)
    as (Ht & c1 & user1 & Hv1 & Hdb).
  { unfold resetPassword in H1.
    destruct (truthy token); [|discriminate H1].
    destruct (truthy password1); [|discriminate H1]. simpl in H1.
    split; [reflexivity|].
    destruct (jwt_verify (date_now env1) (str token) JWT_SECRET)
      as [c1|err]; simpl in H1.
    - destruct (users db !! c_id c1) as [user|]; [|discriminate H1].
      inversion H1. by eexists _, _.
    - destruct (String.eqb _ _); discriminate H1. }
  subst db1. assert (c1 = c) as -> by eauto using jwt_verify_claims.
  exists user1.
  assert (Hu : users (updateUser (c_id c) user1 db) !! c_id c = Some user1)
    by apply lookup_insert_eq.
  split; [exact Hu|].
  by apply resetPassword_verified.
Qed.

Section C5_on_sample.
#[local] Existing Instance Sample.platform.

Lemma reset_token_replay_witness :
  exists user,
    users Sample.db_after_first_reset !! Sample.alice = Some user
    /\ resetPassword (mkEnv 3000000 "saltsaltsaltsaltsaltDD" 0%N)
         (Some Sample.reset_token) (Some "second") Sample.db_after_first_reset
       = (json_message 200 "Password updated successfully",
          updateUser Sample.alice
            (mkUser (u_email user)
               (hashPassword "saltsaltsaltsaltsaltDD" "second"))
            Sample.db_after_first_reset).
Proof.
  apply (reset_token_replay (mkEnv 2000000 "saltsaltsaltsaltsaltCC" 0%N)
           (mkEnv 3000000 "saltsaltsaltsaltsaltDD" 0%N)
           (Some Sample.reset_token) (Some "first") (Some "second")
           Sample.db0 Sample.db_after_first_reset
           (payload Sample.reset_jwt)).
  - vm_compute. reflexivity.
  - vm_compute. reflexivity.
  - vm_compute. reflexivity.
Defined.

(** C5, as stated, fails: Alice's reset token changes her password to
    "first" at second 2000 and, presented again at second 3000, changes it
    to "second". *)
Lemma reset_token_used_twice :
  (resetPassword (mkEnv 2000000 "saltsaltsaltsaltsaltCC" 0%N)
     (Some Sample.reset_token) (Some "first") Sample.db0).1
  = json_message 200 "Password updated successfully"
  /\ (resetPassword (mkEnv 3000000 "saltsaltsaltsaltsaltDD" 0%N)
        (Some Sample.reset_token) (Some "second") Sample.db_after_first_reset).1
     = json_message 200 "Password updated successfully"
  /\ u_password <$> users Sample.db_after_first_reset !! Sample.alice
     = Some "$2a$10$saltsaltsaltsaltsaltCCfirst"
  /\ u_password <$>
       users (resetPassword (mkEnv 3000000 "saltsaltsaltsaltsaltDD" 0%N)
                (Some Sample.reset_token) (Some "second")
                Sample.db_after_first_reset).2 !! Sample.alice
     = Some "$2a$10$saltsaltsaltsaltsaltDDsecond".
Proof. vm_compute. done. Qed.

End C5_on_sample.

(** ** Notes: update and delete *)

Section NoteFacts.
Context `{P : Platform}.

(** Update of a note the caller owns: no test of the body, the two fields
    are overwritten with what the body holds. *)
Lemma updateNoteById_owned id noteId title content user db note :
  castObjectId id = Some noteId ->
  notes db !! noteId = Some note ->
  n_owner note = au_id user ->
  updateNoteById id title content user db =
  (mkResponse 200
     (NoteBody (noteId, mkNote title content (n_owner note) (n_createdAt note))),
   updateNote noteId (mkNote title content (n_owner note) (n_createdAt note)) db).
Proof.
  intros Hc Hn Ho. unfold updateNoteById. rewrite Hc. simpl.
  rewrite findOne_byIdAndOwner, Hn. by rewrite decide_True.
Qed.

(** Update and delete of a note of another owner, or of no note. *)
Lemma updateNoteById_missing id noteId title content user db :
  castObjectId id = Some noteId ->
  (forall note, notes db !! noteId = Some note -> n_owner note <> au_id user) ->
  updateNoteById id title content user db
  = (json_message 404 "Note not found", db).
Proof.
  intros Hc Hn. unfold updateNoteById. rewrite Hc. simpl.
  rewrite findOne_byIdAndOwner.
  destruct (notes db !! noteId) as [note|]; [|done].
  rewrite decide_False; [done | by apply Hn].
Qed.

Lemma deleteNoteById_missing id noteId user db :
  castObjectId id = Some noteId ->
  (forall note, notes db !! noteId = Some note -> n_owner note <> au_id user) ->
  deleteNoteById id user db = (json_message 404 "Note not found", db).
Proof.
  intros Hc Hn. unfold deleteNoteById, findOneAndDelete. rewrite Hc. simpl.
  rewrite findOne_byIdAndOwner.
  destruct (notes db !! noteId) as [note|]; [|done].
  rewrite decide_False; [done | by apply Hn].
Qed.

End NoteFacts.

(** ** C3: a note of another identity *)

(** C3: for distinct identities [A] and [B] and a note owned by [A], an
    update or a delete made by [B] against that note's identifier answers
    404 "Note not found" (a message, never the note) and leaves the
    database, hence [A]'s note, as it was. *)
Theorem foreign_note_is_not_found `{P : Platform} (A B noteId : N)
    (id : string) (title content : option string) (user : AuthUser)
    (db : DB) (note : Note) :
  A <> B ->
  notes db !! noteId = Some note -> n_owner note = A ->
  castObjectId id = Some noteId ->
  au_id user = B ->
  updateNoteById id title content user db
    = (json_message 404 "Note not found", db)
  /\ deleteNoteById id user db = (json_message 404 "Note not found", db)
  /\ notes (updateNoteById id title content user db).2 !! noteId = Some note
  /\ notes (deleteNoteById id user db).2 !! noteId = Some note.
Proof.
  intros Hne Hn Ho Hc Hu.
  assert (Hforeign : forall note', notes db !! noteId = Some note' ->
                                   n_owner note' <> au_id user).
  { intros note' Hn'. rewrite Hn in Hn'. inversion Hn'; subst note'.
    congruence. }
  rewrite (updateNoteById_missing _ _ _ _ _ _ Hc Hforeign).
  rewrite (deleteNoteById_missing _ _ _ _ Hc Hforeign).
  done.
Qed.

Section C3_on_sample.
#[local] Existing Instance Sample.platform.

Lemma foreign_note_is_not_found_witness :
  updateNoteById Sample.id_of_note1 (Some "mine") (Some "now")
    (mkAuthUser Sample.bob (Some "bob@example.org")) Sample.db0
    = (json_message 404 "Note not found", Sample.db0)
  /\ deleteNoteById Sample.id_of_note1
       (mkAuthUser Sample.bob (Some "bob@example.org")) Sample.db0
     = (json_message 404 "Note not found", Sample.db0)
  /\ notes (updateNoteById Sample.id_of_note1 (Some "mine") (Some "now")
              (mkAuthUser Sample.bob (Some "bob@example.org")) Sample.db0).2
       !! 1%N = Some Sample.note1
  /\ notes (deleteNoteById Sample.id_of_note1
              (mkAuthUser Sample.bob (Some "bob@example.org")) Sample.db0).2
       !! 1%N = Some Sample.note1.
Proof.
  apply (foreign_note_is_not_found Sample.alice Sample.bob 1%N).
  - vm_compute. discriminate.
  - vm_compute. reflexivity.
  - vm_compute. reflexivity.
  - vm_compute. reflexivity.
  - vm_compute. reflexivity.
Defined.

(** The owner's own calls go through. *)
Example own_note_is_deleted :
  (deleteNoteById Sample.id_of_note1
     (mkAuthUser Sample.alice (Some "alice@example.org")) Sample.db0).1
  = json_message 200 "Note deleted successfully".
Proof. vm_compute. reflexivity. Qed.

End C3_on_sample.

(** ** C10: update does not validate its body *)

(** C10: for a note the caller owns, an update answers 200 whatever the
    body holds -- a missing or empty title or content included, for which
    create answers 400 -- and the stored note then has exactly the title
    and content of the body, missing and empty values included. *)
Theorem update_does_not_validate `{P : Platform} (id : string) (noteId : N)
    (title content : option string) (user : AuthUser) (db : DB)
    (note : Note) (env : Env) :
  castObjectId id = Some noteId ->
  notes db !! noteId = Some note ->
  n_owner note = au_id user ->
  truthy title = false \/ truthy content = false ->
  status (updateNoteById id title content user db).1 = 200%nat
  /\ body (updateNoteById id title content user db).1
     = NoteBody (noteId,
                 mkNote title content (n_owner note) (n_createdAt note))
  /\ notes (updateNoteById id title content user db).2 !! noteId
     = Some (mkNote title content (n_owner note) (n_createdAt note))
  /\ createNote env title content user db
     = (json_message 400 "Title and content required", db).
Proof.
  intros Hc Hn Ho Hfalsy.
  rewrite (updateNoteById_owned _ _ _ _ _ _ _ Hc Hn Ho). simpl.
  split; [reflexivity|]. split; [reflexivity|].
  split; [apply lookup_insert_eq|].
  unfold createNote. by destruct Hfalsy as [-> | ->]; rewrite ?orb_true_r.
Qed.

Section C10_on_sample.
#[local] Existing Instance Sample.platform.

Lemma update_does_not_validate_witness :
  status (updateNoteById Sample.id_of_note1 None (Some "")
            (mkAuthUser Sample.alice None) Sample.db0).1 = 200%nat
  /\ notes (updateNoteById Sample.id_of_note1 None (Some "")
              (mkAuthUser Sample.alice None) Sample.db0).2 !! 1%N
     = Some (mkNote None (Some "") Sample.alice 2000000).
Proof.
  destruct (update_does_not_validate Sample.id_of_note1 1%N None (Some "")
              (mkAuthUser Sample.alice None) Sample.db0 Sample.note1
              (mkEnv 0 "" 0%N))
    as (Hs & _ & Hn & _).
  - vm_compute. reflexivity.
  - vm_compute. reflexivity.
  - vm_compute. reflexivity.
  - left. vm_compute. reflexivity.
  - split; [exact Hs | exact Hn].
Defined.

End C10_on_sample.

(** ** C9: listing notes *)

#[global] Instance newerFirst_trans : Transitive newerFirst.
Proof. unfold newerFirst. intros a b c Hab Hbc. lia. Qed.
#[global] Instance newerFirst_total : Total newerFirst.
Proof. unfold newerFirst. intros a b. lia. Qed.

(** The documents [find({ owner }).sort(...)] returns: those of the owner,
    each once. *)
Lemma findSorted_elem_of (uid : N) (m : gmap N Note) (k : N) (n : Note) :
  (k, n) ∈ findSorted uid m <-> m !! k = Some n /\ n_owner n = uid.
Proof.
  unfold findSorted. rewrite merge_sort_Permutation.
  rewrite list_elem_of_filter, elem_of_map_to_list. unfold byOwner. simpl.
  tauto.
Qed.

Lemma findSorted_NoDup (uid : N) (m : gmap N Note) : NoDup (findSorted uid m).
Proof.
  unfold findSorted. rewrite merge_sort_Permutation.
  apply NoDup_filter, NoDup_map_to_list.
Qed.

Lemma findSorted_sorted (uid : N) (m : gmap N Note) :
  StronglySorted newerFirst (findSorted uid m).
Proof. apply StronglySorted_merge_sort; apply _. Qed.

(** A list in descending order without two equal creation times is in
    strictly descending order. *)
Lemma strictly_sorted (l : list (N * Note)) :
  StronglySorted newerFirst l ->
  (forall a b, a ∈ l -> b ∈ l -> a <> b ->
               n_createdAt a.2 <> n_createdAt b.2) ->
  NoDup l ->
  StronglySorted strictlyNewerFirst l.
Proof.
  induction 1 as [|a l Hl IH Ha]; intros Hdist Hnd; [constructor|].
  apply NoDup_cons in Hnd as [Hnotin Hnd].
  constructor.
  - apply IH; [|done]. intros x y Hx Hy. apply Hdist; by right.
  - rewrite Forall_forall in Ha |- *. intros b Hb.
    assert (Hab : a <> b) by (intros ->; done).
    specialize (Ha b Hb).
    specialize (Hdist a b (list_elem_of_here _ _) (list_elem_of_further _ _ _ Hb) Hab).
    unfold newerFirst, strictlyNewerFirst in *. lia.
Qed.

(** C9 (amended): list answers 200 with exactly the notes owned by the
    caller, each once, newest first. Notes of equal creation time may follow
    one another: the order is descending, and it is strictly descending
    when no two notes of the caller have the same creation time. *)
Theorem list_is_owned_and_sorted (user : AuthUser) (db : DB) :
  exists l,
    listNotes user db = (mkResponse 200 (NotesBody l), db)
    /\ NoDup l
    /\ (forall k n, (k, n) ∈ l <->
                    notes db !! k = Some n /\ n_owner n = au_id user)
    /\ StronglySorted newerFirst l
    /\ ((forall k1 n1 k2 n2,
           notes db !! k1 = Some n1 -> n_owner n1 = au_id user ->
           notes db !! k2 = Some n2 -> n_owner n2 = au_id user ->
           k1 <> k2 -> n_createdAt n1 <> n_createdAt n2) ->
        StronglySorted strictlyNewerFirst l).
Proof.
  exists (findSorted (au_id user) (notes db)).
  split; [reflexivity|].
  split; [apply findSorted_NoDup|].
  split; [apply findSorted_elem_of|].
  split; [apply findSorted_sorted|].
  intros Hdist. apply strictly_sorted.
  - apply findSorted_sorted.
  - intros [k1 n1] [k2 n2] [H1 O1]%findSorted_elem_of
      [H2 O2]%findSorted_elem_of Hne. simpl.
    apply (Hdist k1 n1 k2 n2); try done.
    intros ->. apply Hne. congruence.
  - apply findSorted_NoDup.
Qed.

Section C9_on_sample.

(** C9, as stated, fails: Alice creates two notes within one millisecond
    (same [Date.now()]); her list holds both, and neither creation time is
    greater than the other. *)
Lemma list_with_equal_times :
  (listNotes Sample.alice_user Sample.db_same_ms).1
    = mkResponse 200 (NotesBody [(2%N, Sample.note2); (1%N, Sample.note1)])
  /\ n_createdAt Sample.note2 = n_createdAt Sample.note1
  /\ ~ StronglySorted strictlyNewerFirst
         [(2%N, Sample.note2); (1%N, Sample.note1)].
Proof.
  split; [vm_compute; reflexivity|]. split; [reflexivity|].
  intros Hs. inversion Hs as [|? ? _ Hall]; subst.
  rewrite Forall_forall in Hall.
  specialize (Hall (1%N, Sample.note1) (list_elem_of_here _ _)).
  unfold strictlyNewerFirst in Hall. simpl in Hall. lia.
Qed.

(** With distinct creation times the list is strictly descending. *)
Example list_of_bob_is_strict :
  StronglySorted strictlyNewerFirst
    (findSorted Sample.bob (notes Sample.db0)).
Proof.
  vm_compute. repeat constructor.
Qed.

End C9_on_sample.

(** ** Accounts *)

Section AccountFacts.
Context `{P : Platform}.

Lemma findOne_byEmail_None (m : gmap N User) (email : string) :
  findOne (byEmail email) m = None <->
  forall uid u, m !! uid = Some u -> u_email u <> email.
Proof. apply findOne_None. Qed.

(** A successful registration, read backwards: both fields were given, the
    email was unused, and the new identity is the only change. *)
Lemma register_201 env email password db r db1 :
  register env email password db = (r, db1) -> status r = 201%nat ->
  truthy email = true /\ truthy password = true
  /\ findOne (byEmail (str email)) (users db) = None
  /\ users db !! new_id env = None
  /\ db1 = mkDB (<[new_id env :=
                    mkUser (str email)
                      (hashPassword (gen_salt env) (str password))]> (users db))
                (notes db)
  /\ r = mkResponse 201
           (TokenUser
              (generateToken (date_now env) (new_id env)
                 (mkUser (str email)
                    (hashPassword (gen_salt env) (str password))))
              (new_id env) (str email)).
Proof.
  unfold register, insertUser. intros Hreg Hst.
  destruct (truthy email); [|inversion Hreg; subst; discriminate Hst].
  destruct (truthy password); [|inversion Hreg; subst; discriminate Hst].
  simpl in Hreg.
  destruct (findOne (byEmail (str email)) (users db)) as [found|] eqn:Hfind;
    [inversion Hreg; subst; discriminate Hst|].
  simpl in Hreg.
  destruct (users db !! new_id env) as [used|] eqn:Hid; simpl in Hreg;
    [inversion Hreg; subst; discriminate Hst|].
  inversion Hreg; subst. done.
Qed.

(** Registration of an unused email with an unused [_id]. *)
Lemma register_fresh env email password db :
  truthy email = true -> truthy password = true ->
  (forall uid u, users db !! uid = Some u -> u_email u <> str email) ->
  users db !! new_id env = None ->
  register env email password db =
  (mkResponse 201
     (TokenUser
        (generateToken (date_now env) (new_id env)
           (mkUser (str email) (hashPassword (gen_salt env) (str password))))
        (new_id env) (str email)),
   mkDB (<[new_id env :=
             mkUser (str email) (hashPassword (gen_salt env) (str password))]>
           (users db))
        (notes db)).
Proof.
  intros He Hp Hfree Hid. apply findOne_byEmail_None in Hfree.
  unfold register, insertUser. rewrite He, Hp. simpl.
  rewrite Hfree. simpl. rewrite ?Hfree, Hid. reflexivity.
Qed.

(** After the insertion of the first identity with an email, that identity
    is the one [findOne({ email })] returns. *)
Lemma findOne_inserted (m : gmap N User) (uid : N) (u : User) :
  findOne (byEmail (u_email u)) m = None ->
  findOne (byEmail (u_email u)) (<[uid := u]> m) = Some (uid, u).
Proof.
  intros Hnone. apply findOne_unique.
  - apply lookup_insert_eq.
  - reflexivity.
  - intros k' d' Hk' Hq. destruct (decide (k' = uid)) as [->|Hne].
    + rewrite lookup_insert_eq in Hk'. congruence.
    + rewrite lookup_insert_ne in Hk' by done.
      exfalso. by eapply (proj1 (findOne_None _ _) Hnone).
Qed.

(** ... and the only one with that email. *)
Lemma one_with_email (m : gmap N User) (uid : N) (u : User) :
  m !! uid = None ->
  findOne (byEmail (u_email u)) m = None ->
  List.length (filter (byEmail (u_email u)) (map_to_list (<[uid := u]> m)))
  = 1%nat.
Proof.
  intros Hid Hnone. rewrite map_to_list_insert by done.
  rewrite filter_cons_True by reflexivity. simpl. f_equal.
  unfold findOne in Hnone. apply head_None in Hnone. by rewrite Hnone.
Qed.

(** Login when no identity has the email, whatever the password is. *)
Lemma login_unknown env email password db e :
  js_truthy email = true -> js_truthy password = true ->
  castString email = Some e ->
  (forall uid u, users db !! uid = Some u -> u_email u <> e) ->
  login env email password db = (json_message 401 "Invalid credentials", db).
Proof.
  intros He Hp Hc Hno. apply findOne_byEmail_None in Hno.
  unfold login, findOneByEmail. by rewrite He, Hp, Hc, Hno.
Qed.

(** Login when bcrypt refuses the password, a string, for the identities
    with the email. *)
Lemma login_wrong_password env email password db e :
  js_truthy email = true -> password <> "" ->
  castString email = Some e ->
  (forall uid u, users db !! uid = Some u -> u_email u = e ->
                 bcrypt_compare password (u_password u) = false) ->
  login env email (JString password) db
  = (json_message 401 "Invalid credentials", db).
Proof.
  intros He Hp Hc Hbad. apply truthy_Some in Hp.
  unfold login, findOneByEmail. simpl in *. rewrite He, Hp, Hc. simpl.
  destruct (findOne (byEmail e) (users db)) as [[uid u]|] eqn:Hf;
    [|reflexivity].
  apply findOne_Some in Hf as [Hu Hq]. simpl in *.
  by rewrite (Hbad uid u Hu Hq).
Qed.

(** Login when an identity has the email and the password is a truthy
    value that is not a string: [bcrypt.compare] throws and the handler
    answers 500 with the message of the error. *)
Lemma login_not_a_string env email password db e :
  js_truthy email = true -> js_truthy password = true ->
  (forall s, password <> JString s) ->
  castString email = Some e ->
  (exists uid u, users db !! uid = Some u /\ u_email u = e) ->
  login env email password db
  = (json_message 500 ("Illegal arguments: " +:+ typeof password +:+ ", string"),
     db).
Proof.
  intros He Hp Hns Hc (uid & u & Hu & Hue).
  unfold login, findOneByEmail. rewrite He, Hp, Hc. simpl.
  destruct (findOne (byEmail e) (users db)) as [[uid' u']|] eqn:Hf.
  - destruct password as [| |b|n|s]; try reflexivity. by destruct (Hns s).
  - exfalso. by eapply (proj1 (findOne_None _ _) Hf uid u).
Qed.

End AccountFacts.

(** ** C4: the two ways a login fails *)

(** When both fields are strings, a login with the email of an identity
    and a password bcrypt refuses, and a login with an email of no
    identity, get the same answer, 401 "Invalid credentials", and neither
    changes the database. *)
Lemma login_failures_coincide `{P : Platform} (env1 env2 : Env)
    (email1 password1 email2 password2 : string) (db : DB) :
  email1 <> "" -> password1 <> "" -> email2 <> "" -> password2 <> "" ->
  (forall uid' u, users db !! uid' = Some u -> u_email u = email1 ->
                  bcrypt_compare password1 (u_password u) = false) ->
  (forall uid' u, users db !! uid' = Some u -> u_email u <> email2) ->
  login env1 (JString email1) (JString password1) db
    = login env2 (JString email2) (JString password2) db
  /\ login env1 (JString email1) (JString password1) db
     = (json_message 401 "Invalid credentials", db).
Proof.
  intros He1 Hp1 He2 Hp2 Hwrong Hunknown.
  apply truthy_Some in He1, He2, Hp2.
  rewrite (login_wrong_password env1 (JString email1) password1 db email1)
    by done.
  by rewrite (login_unknown env2 (JString email2) (JString password2) db
                email2).
Qed.

Section C4_on_sample.
#[local] Existing Instance Sample.platform.

(** C4 at a password that is not a string: the body
    [{ email: "alice@example.org", password: 123 }] is answered 500
    "Illegal arguments: number, string" because Alice exists (the lookup
    succeeds and [bcrypt.compare] throws), while the same password with an
    email of no identity is answered 401 "Invalid credentials". The two
    answers differ, so the response tells whether the email is registered. *)
Theorem login_with_number_password :
  login (mkEnv 1000000 "" 0%N) (JString "alice@example.org") (JNumber 123)
    Sample.db0
  = (json_message 500 "Illegal arguments: number, string", Sample.db0)
  /\ login (mkEnv 1000000 "" 0%N) (JString "nobody@example.org") (JNumber 123)
       Sample.db0
     = (json_message 401 "Invalid credentials", Sample.db0).
Proof.
  split.
  - refine (login_not_a_string (mkEnv 1000000 "" 0%N)
              (JString "alice@example.org") (JNumber 123) Sample.db0
              "alice@example.org" _ _ _ _ _); try done.
    exists Sample.alice, Sample.alice_doc. split; vm_compute; reflexivity.
  - refine (login_unknown (mkEnv 1000000 "" 0%N)
              (JString "nobody@example.org") (JNumber 123) Sample.db0
              "nobody@example.org" _ _ _ _); try done.
    refine (proj1 (map_Forall_lookup
                     (fun _ u => u_email u <> "nobody@example.org") _) _).
    apply (bool_decide_unpack _). vm_compute. exact I.
Qed.

(** With string passwords the two failures are answered alike. *)
Example login_failures_of_strings :
  login (mkEnv 1000000 "" 0%N) (JString "alice@example.org") (JString "wrong")
    Sample.db0
  = login (mkEnv 2000000 "" 0%N) (JString "nobody@example.org")
      (JString "guess") Sample.db0.
Proof. vm_compute. reflexivity. Qed.

(** With the right password the same request is answered 200. *)
Example login_of_alice :
  status (login (mkEnv 1000000 "" 0%N) (JString "alice@example.org")
            (JString "correct horse") Sample.db0).1 = 200%nat.
Proof. vm_compute. reflexivity. Qed.

End C4_on_sample.

(** ** C7: register, then login *)

(** C7: for a non-empty email and password, from a state where no identity
    has the email, register answers 201 and creates the identity; a login
    with the same pair then answers 200, and the token it returns verifies
    (until it expires, seven days later) to claims whose id is the id
    register gave the identity. What the libraries contribute is stated:
    the [_id] drawn for the new document is unused, bcrypt accepts the
    password against the hash it made of it, and the token reads back. *)
Theorem register_then_login `{P : Platform} (env1 env2 : Env) (clock3 : Z)
    (email password : string) (db : DB) :
  email <> "" -> password <> "" ->
  (forall uid u, users db !! uid = Some u -> u_email u <> email) ->
  users db !! new_id env1 = None ->
  bcrypt_compare password (bcrypt_hash password (gen_salt env1)) = true ->
  reads_back (signed (new_id env1) (Some email) JWT_SECRET 604800
                (date_now env2)) = true ->
  Z.div clock3 1000 < Z.div (date_now env2) 1000 + 604800 ->
  exists token1 token2 db1 c,
    register env1 (Some email) (Some password) db
      = (mkResponse 201 (TokenUser token1 (new_id env1) email), db1)
    /\ login env2 (JString email) (JString password) db1
       = (mkResponse 200 (TokenUser token2 (new_id env1) email), db1)
    /\ jwt_verify clock3 token2 JWT_SECRET = Return c
    /\ c_id c = new_id env1.
Proof.
  intros He Hp Hfree Hid Hbcrypt Hrb Hlive.
  apply truthy_Some in He, Hp.
  pose (user := mkUser email (hashPassword (gen_salt env1) password)).
  exists (generateToken (date_now env1) (new_id env1) user),
         (generateToken (date_now env2) (new_id env1) user),
         (mkDB (<[new_id env1 := user]> (users db)) (notes db)),
         (payload (signed (new_id env1) (Some email) JWT_SECRET 604800
                     (date_now env2))).
  split; [by apply (register_fresh env1 (Some email) (Some password))|].
  split.
  - assert (Hfound : findOne (byEmail email)
                       (<[new_id env1 := user]> (users db))
                     = Some (new_id env1, user)).
    { apply (findOne_inserted (users db) (new_id env1) user).
      by apply findOne_byEmail_None. }
    unfold login, findOneByEmail. simpl in *. rewrite He, Hp. simpl.
    rewrite Hfound. unfold user, hashPassword. simpl.
    rewrite Hbcrypt. reflexivity.
  - split; [|reflexivity].
    unfold generateToken. simpl.
    rewrite (jwt_verify_signed _ _ _ _ _ clock3 Hrb).
    assert (Hleb : Z.leb (Z.div (date_now env2) 1000 + 604800)
                     (Z.div clock3 1000) = false) by (apply Z.leb_gt; lia).
    by rewrite Hleb.
Qed.

Section C7_on_sample.
#[local] Existing Instance Sample.platform.

Lemma register_then_login_witness :
  exists token1 token2 db1 c,
    register (mkEnv 4000000 "saltsaltsaltsaltsaltEE" 195%N)
      (Some "carol@example.org") (Some "tr0ub4dor") Sample.db0
      = (mkResponse 201 (TokenUser token1 195%N "carol@example.org"), db1)
    /\ login (mkEnv 5000000 "" 0%N)
         (JString "carol@example.org") (JString "tr0ub4dor") db1
       = (mkResponse 200 (TokenUser token2 195%N "carol@example.org"), db1)
    /\ jwt_verify 6000000 token2 JWT_SECRET = Return c
    /\ c_id c = 195%N.
Proof.
  apply (register_then_login
           (mkEnv 4000000 "saltsaltsaltsaltsaltEE" 195%N)
           (mkEnv 5000000 "" 0%N) 6000000
           "carol@example.org" "tr0ub4dor" Sample.db0).
  - discriminate.
  - discriminate.
  - refine (proj1 (map_Forall_lookup
                     (fun _ u => u_email u <> "carol@example.org") _) _).
    apply (bool_decide_unpack _). vm_compute. exact I.
  - vm_compute. reflexivity.
  - vm_compute. reflexivity.
  - vm_compute. reflexivity.
  - vm_compute. reflexivity.
Defined.

End C7_on_sample.

(** ** C8: registering an email twice *)

(** C8: after a registration that answered 201, a second registration of
    the same email (with any password) answers 409 "User already exists",
    changes nothing, and the users collection holds exactly one identity
    with that email. *)
Theorem second_registration_conflicts `{P : Platform} (env1 env2 : Env)
    (email password1 password2 : option string) (db db1 : DB)
    (r1 : Response) :
  register env1 email password1 db = (r1, db1) -> status r1 = 201%nat ->
  truthy password2 = true ->
  register env2 email password2 db1
    = (json_message 409 "User already exists", db1)
  /\ List.length (filter (byEmail (str email)) (map_to_list (users db1)))
     = 1%nat.
Proof.
  intros Hreg Hst Hp2.
  apply register_201 in Hreg as (He & _ & Hnone & Hid & -> & _); [|done].
  set (user := mkUser (str email) _). simpl.
  split.
  - assert (Hfound : findOne (byEmail (str email))
                       (<[new_id env1 := user]> (users db))
                     = Some (new_id env1, user))
      by exact (findOne_inserted (users db) (new_id env1) user Hnone).
    unfold register. rewrite He, Hp2. simpl. by rewrite Hfound.
  - by apply (one_with_email (users db) (new_id env1) user).
Qed.

Section C8_on_sample.
#[local] Existing Instance Sample.platform.

Lemma second_registration_conflicts_witness :
  register (mkEnv 5000000 "saltsaltsaltsaltsaltFF" 196%N)
    (Some "carol@example.org") (Some "other")
    (register (mkEnv 4000000 "saltsaltsaltsaltsaltEE" 195%N)
       (Some "carol@example.org") (Some "tr0ub4dor") Sample.db0).2
  = (json_message 409 "User already exists",
     (register (mkEnv 4000000 "saltsaltsaltsaltsaltEE" 195%N)
        (Some "carol@example.org") (Some "tr0ub4dor") Sample.db0).2)
  /\ List.length
       (filter (byEmail "carol@example.org")
          (map_to_list
             (users (register (mkEnv 4000000 "saltsaltsaltsaltsaltEE" 195%N)
                       (Some "carol@example.org") (Some "tr0ub4dor")
                       Sample.db0).2)))
     = 1%nat.
Proof.
  apply (second_registration_conflicts
           (mkEnv 4000000 "saltsaltsaltsaltsaltEE" 195%N)
           (mkEnv 5000000 "saltsaltsaltsaltsaltFF" 196%N)
           (Some "carol@example.org") (Some "tr0ub4dor") (Some "other")
           Sample.db0 _
           (register (mkEnv 4000000 "saltsaltsaltsaltsaltEE" 195%N)
              (Some "carol@example.org") (Some "tr0ub4dor") Sample.db0).1).
  - apply surjective_pairing.
  - vm_compute. reflexivity.
  - vm_compute. reflexivity.
Defined.

End C8_on_sample.

(** * Further properties of the handlers *)

(** ** [split] *)

Lemma split_nonempty (sep : ascii) (s : string) : split sep s <> [].
Proof.
  destruct s as [|c s]; simpl; [done|].
  destruct (Ascii.eqb c sep); [done|]. by destruct (split sep s).
Qed.

(** X1: joining the fields of [s.split(sep)] with the separator gives [s]
    back, and no field contains the separator. *)
Theorem split_join (sep : ascii) (s : string) :
  String.concat (String sep "") (split sep s) = s
  /\ Forall (fun w => forallb (fun c => negb (Ascii.eqb c sep))
                        (list_ascii_of_string w) = true) (split sep s).
Proof.
  induction s as [|c s [IHj IHf]]; simpl; [by repeat constructor|].
  destruct (Ascii.eqb c sep) eqn:Hc.
  - apply Ascii.eqb_eq in Hc as ->. split.
    + pose proof (split_nonempty sep s) as Hne.
      destruct (split sep s) as [|w ws]; [done|]. simpl in *. by rewrite IHj.
    + by constructor.
  - pose proof (split_nonempty sep s) as Hne.
    destruct (split sep s) as [|w ws]; [done|]. split.
    + destruct ws as [|w' ws]; simpl in *; by rewrite <- IHj.
    + inversion IHf as [|? ? Hw Hws]; subst. constructor; [|done].
      simpl. by rewrite Hc, Hw.
Qed.

(** ** The gate *)

Section GateFacts.
Context `{P : Platform}.

(** The signing key is never the empty string: it is
    [process.env.JWT_SECRET] when that is set and non-empty, and
    "notesflow_secret" otherwise. *)
Theorem JWT_SECRET_default :
  JWT_SECRET <> ""
  /\ (forall s, env_JWT_SECRET = Some s -> s <> "" -> JWT_SECRET = s)
  /\ (env_JWT_SECRET = None \/ env_JWT_SECRET = Some "" ->
      JWT_SECRET = "notesflow_secret").
Proof.
  unfold JWT_SECRET. destruct env_JWT_SECRET as [s|].
  - destruct (truthy (Some s)) eqn:Ht.
    + apply truthy_Some in Ht. split; [done|]. split; [congruence|].
      intros [?|?]; congruence.
    + split; [done|]. split; [|done]. intros s' [= ->] Hs'.
      apply truthy_Some in Hs'. congruence.
  - split; [done|]. split; [done|]. done.
Qed.

(** What [jwt.verify] has checked when it returns. *)
Lemma jwt_verify_Return clock token secret c :
  jwt_verify clock token secret = Return c ->
  token <> ""
  /\ exists j, jws_decode token = Some j
       /\ signature j = HS256 secret c /\ payload j = c
       /\ Z.div clock 1000 < c_exp c.
Proof.
  unfold jwt_verify. destruct (String.eqb token "") eqn:He; [discriminate|].
  apply String.eqb_neq in He.
  destruct (jws_decode token) as [j|]; [|discriminate].
  destruct (decide _) as [Hs|]; [|discriminate].
  destruct (Z.leb _ _) eqn:Hexp; [discriminate|]. intros [= <-].
  apply Z.leb_gt in Hexp. split; [done|]. by exists j.
Qed.

(** X2: the gate binds an identity only from a header that starts with
    "Bearer " and whose second space-separated field parses to a token
    signed with [JWT_SECRET] over its own payload and not yet expired; the
    identity bound is the id and email of that payload. *)
Theorem gate_soundness (clock : Z) (authorization : option string)
    (user : AuthUser) :
  authMiddleware clock authorization = Next user ->
  exists auth j,
    authorization = Some auth
    /\ String.prefix "Bearer " auth = true
    /\ jws_decode (nth 1 (split " " auth) "") = Some j
    /\ signature j = HS256 JWT_SECRET (payload j)
    /\ Z.div clock 1000 < c_exp (payload j)
    /\ user = mkAuthUser (c_id (payload j)) (c_email (payload j)).
Proof.
  unfold authMiddleware. destruct authorization as [auth|]; [|discriminate].
  destruct (negb (truthy (Some auth))); [discriminate|]. simpl.
  destruct (String.prefix "Bearer " auth) eqn:Hpre; [|discriminate]. simpl.
  destruct (jwt_verify clock _ JWT_SECRET) as [c|err] eqn:Hv; [|discriminate].
  intros [= <-]. apply jwt_verify_Return in Hv as (_ & j & Hd & Hs & <- & He).
  by exists auth, j.
Qed.

(** X3: only the second space-separated field of the header is read: what
    follows a further space after the token is ignored. *)
Theorem gate_ignores_trailing_fields (clock : Z) (token rest : string) :
  one_word token = true ->
  authMiddleware clock (Some ("Bearer " +:+ token +:+ " " +:+ rest))
  = authMiddleware clock (Some ("Bearer " +:+ token)).
Proof.
  intros Hw. rewrite (authMiddleware_bearer clock token Hw).
  unfold authMiddleware. rewrite bearer_shape.
  assert (Hsplit : forall t, one_word t = true ->
            exists ws, split " " (t +:+ " " +:+ rest) = t :: ws).
  { clear. induction t as [|c t IH]; simpl.
    - intros _. by eexists.
    - unfold one_word. simpl. intros [Hc Ht]%andb_prop.
      apply negb_true_iff in Hc. rewrite Hc.
      destruct (IH Ht) as [ws ->]. by eexists. }
  destruct (Hsplit token Hw) as [ws Hws].
  assert (Hfield : nth 1 (split " " ("Bearer " +:+ token +:+ " " +:+ rest)) ""
                   = token).
  { change (split " " ("Bearer " +:+ token +:+ " " +:+ rest))
      with ("Bearer" :: split " " (token +:+ " " +:+ rest)).
    by rewrite Hws. }
  by rewrite Hfield.
Qed.

End GateFacts.

Section GateFacts_on_sample.
#[local] Existing Instance Sample.platform.

Lemma gate_soundness_witness :
  exists auth j,
    Some ("Bearer " +:+ Sample.reset_token) = Some auth
    /\ String.prefix "Bearer " auth = true
    /\ jws_decode (nth 1 (split " " auth) "") = Some j
    /\ signature j = HS256 JWT_SECRET (payload j)
    /\ Z.div 2000000 1000 < c_exp (payload j)
    /\ mkAuthUser Sample.alice None
       = mkAuthUser (c_id (payload j)) (c_email (payload j)).
Proof.
  apply (gate_soundness 2000000 (Some ("Bearer " +:+ Sample.reset_token))
           (mkAuthUser Sample.alice None)).
  vm_compute. reflexivity.
Defined.

Lemma gate_ignores_trailing_fields_witness :
  authMiddleware 2000000
    (Some ("Bearer " +:+ Sample.reset_token +:+ " " +:+ "and more"))
  = authMiddleware 2000000 (Some ("Bearer " +:+ Sample.reset_token)).
Proof.
  apply (gate_ignores_trailing_fields 2000000 Sample.reset_token "and more").
  vm_compute. reflexivity.
Defined.

End GateFacts_on_sample.

(** ** Sessions and resets *)

Section SessionFacts.
Context `{P : Platform}.

(** A token [jwt.sign] made, as a bearer credential. *)
Lemma signed_token_at_gate id email expiresIn clock clock' :
  reads_back (signed id email JWT_SECRET expiresIn clock) = true ->
  one_word (jwt_sign id email JWT_SECRET expiresIn clock) = true ->
  authMiddleware clock'
    (Some ("Bearer " +:+ jwt_sign id email JWT_SECRET expiresIn clock))
  = if Z.leb (Z.div clock 1000 + expiresIn) (Z.div clock' 1000)
    then Respond (json_message 401 "Invalid token")
    else Next (mkAuthUser id email).
Proof.
  intros Hrb Hw. rewrite (authMiddleware_bearer clock' _ Hw).
  rewrite (jwt_verify_signed _ _ _ _ _ clock' Hrb).
  by destruct (Z.leb _ _).
Qed.

(** What a login did, read off its answer. *)
Lemma login_cases (env : Env) (email password : JsValue)
    (db db1 : DB) (r : Response) :
  login env email password db = (r, db1) ->
  db1 = db
  /\ (status r = 200%nat ->
      js_truthy email = true
      /\ exists e p uid user,
           castString email = Some e /\ password = JString p /\ p <> ""
           /\ users db !! uid = Some user
           /\ u_email user = e
           /\ bcrypt_compare p (u_password user) = true
           /\ r = mkResponse 200
                    (TokenUser (generateToken (date_now env) uid user) uid
                       (u_email user))).
Proof.
  unfold login, findOneByEmail. intros Hl.
  destruct (js_truthy email); [|by inversion Hl; subst].
  destruct (js_truthy password) eqn:Hp; [|by inversion Hl; subst].
  simpl in Hl.
  destruct (castString email) as [e|]; [|by inversion Hl; subst].
  destruct (findOne (byEmail e) (users db)) as [[uid user]|] eqn:Hf;
    [|by inversion Hl; subst].
  apply findOne_Some in Hf as [Hu He]. simpl in Hu, He.
  destruct password as [| |b|n|p]; simpl in Hl; try by inversion Hl; subst.
  destruct (bcrypt_compare p (u_password user)) eqn:Hc;
    simpl in Hl; inversion Hl; subst r db1; [|done].
  split; [done|]. intros _. split; [done|].
  exists e, p, uid, user.
  repeat split; try done. by apply truthy_Some.
Qed.


(** X5: the token of a successful login, sent as [Authorization: Bearer
    ...], passes the gate until it expires, seven days (604800 s) after the
    login, and the gate binds the id and email of the login response; from
    then on the gate answers 401 "Invalid token". *)
Theorem login_token_at_gate (env : Env) (clock' : Z)
    (email password : JsValue) (db db1 : DB)
    (token : string) (uid : N) (e : string) :
  login env email password db = (mkResponse 200 (TokenUser token uid e), db1) ->
  reads_back (signed uid (Some e) JWT_SECRET 604800 (date_now env)) = true ->
  one_word token = true ->
  authMiddleware clock' (Some ("Bearer " +:+ token))
  = if Z.leb (Z.div (date_now env) 1000 + 604800) (Z.div clock' 1000)
    then Respond (json_message 401 "Invalid token")
    else Next (mkAuthUser uid (Some e)).
Proof.
  intros Hl Hrb Hw.
  apply login_cases in Hl as [_ Hl].
  destruct (Hl eq_refl) as (_ & e' & p & uid' & user & _ & _ & _ & _ & _ & _ & Hr).
  inversion Hr; subst. by apply signed_token_at_gate.
Qed.

(** What a reset did, read off its answer. *)
Lemma resetPassword_cases (env : Env) (token password : option string)
    (db db1 : DB) (r : Response) :
  resetPassword env token password db = (r, db1) ->
  (status r <> 200%nat -> db1 = db)
  /\ (status r = 200%nat ->
      exists j user,
        jws_decode (str token) = Some j
        /\ signature j = HS256 JWT_SECRET (payload j)
        /\ Z.div (date_now env) 1000 < c_exp (payload j)
        /\ users db !! c_id (payload j) = Some user
        /\ db1 = updateUser (c_id (payload j))
                   (mkUser (u_email user)
                      (bcrypt_hash (str password) (gen_salt env))) db).
Proof.
  unfold resetPassword. intros Hr.
  destruct (truthy token); [|by inversion Hr; subst].
  destruct (truthy password); [|by inversion Hr; subst]. simpl in Hr.
  destruct (jwt_verify (date_now env) (str token) JWT_SECRET) as [c|err] eqn:Hv;
    simpl in Hr.
  - apply jwt_verify_Return in Hv as (_ & j & Hd & Hs & <- & He).
    destruct (users db !! c_id (payload j)) as [user|] eqn:Hu;
      inversion Hr; subst; [|done].
    split; [done|]. intros _. by exists j, user.
  - destruct (String.eqb _ _); by inversion Hr; subst.
Qed.

(** X6: reset-password writes only when it answers 200, which it does only
    for a token that parses, is signed with [JWT_SECRET] over its own
    payload, has not expired and names an existing identity; what it writes
    is the hash of the given password for that identity, whose email it
    keeps. *)
Theorem reset_soundness (env : Env) (token password : option string)
    (db db1 : DB) (r : Response) :
  resetPassword env token password db = (r, db1) ->
  (status r <> 200%nat -> db1 = db)
  /\ (status r = 200%nat ->
      exists j user,
        jws_decode (str token) = Some j
        /\ signature j = HS256 JWT_SECRET (payload j)
        /\ Z.div (date_now env) 1000 < c_exp (payload j)
        /\ users db !! c_id (payload j) = Some user
        /\ db1 = updateUser (c_id (payload j))
                   (mkUser (u_email user)
                      (bcrypt_hash (str password) (gen_salt env))) db).
Proof. exact (resetPassword_cases env token password db db1 r). Qed.

(** X7: a session token is accepted by reset-password as well: while it
    has not expired, the token [generateToken] made for an identity lets its
    bearer replace that identity's password. *)
Theorem session_token_resets_password (env : Env) (clock : Z) (uid : N)
    (user : User) (password : option string) (db : DB) :
  users db !! uid = Some user ->
  reads_back (signed uid (Some (u_email user)) JWT_SECRET 604800 clock)
    = true ->
  truthy password = true ->
  Z.div (date_now env) 1000 < Z.div clock 1000 + 604800 ->
  resetPassword env (Some (generateToken clock uid user)) password db
  = (json_message 200 "Password updated successfully",
     updateUser uid
       (mkUser (u_email user) (hashPassword (gen_salt env) (str password)))
       db).
Proof.
  intros Hu Hrb Hp Hlive.
  assert (Hv : jwt_verify (date_now env) (generateToken clock uid user)
                 JWT_SECRET
               = Return (payload (signed uid (Some (u_email user)) JWT_SECRET
                                    604800 clock))).
  { unfold generateToken. rewrite (jwt_verify_signed _ _ _ _ _ _ Hrb).
    assert (Hleb : Z.leb (Z.div clock 1000 + 604800)
                     (Z.div (date_now env) 1000) = false)
      by (apply Z.leb_gt; lia).
    by rewrite Hleb. }
  assert (Ht : truthy (Some (generateToken clock uid user)) = true).
  { apply jwt_verify_Return in Hv as [Hne _]. by apply truthy_Some. }
  by rewrite (resetPassword_verified env _ password db _ user Ht Hp Hv Hu).
Qed.

(** X8: forgot-password answers a request that names an email with the
    same 200 acknowledgement whatever the database holds, so the response
    does not tell whether the email belongs to an identity. *)
Theorem forgot_password_reveals_nothing (env env' : Env)
    (email : option string) (db db' : DB) :
  truthy email = true ->
  (forgotPassword env email db).1
    = json_message 200 "If the email exists, instructions will be sent"
  /\ (forgotPassword env email db).1 = (forgotPassword env' email db').1.
Proof.
  intros He.
  assert (Hack : forall e d, (forgotPassword e email d).1
            = json_message 200 "If the email exists, instructions will be sent").
  { intros e d. unfold forgotPassword. rewrite He. simpl.
    by destruct (findOne _ _) as [[? ?]|]. }
  by rewrite !Hack.
Qed.

(** Forgot-password logs at most one line; it logs one only when an
    identity has the given email, and the token in it is the reset token of
    that identity's id at the time of the request. *)
Theorem forgot_password_log (env : Env) (email : option string) (db : DB) :
  (forgotPassword env email db).2 = []
  \/ exists uid user,
       users db !! uid = Some user /\ u_email user = str email
       /\ (forgotPassword env email db).2
          = ["Reset token for " +:+ str email +:+ ": "
               +:+ resetTokenFor (date_now env) uid].
Proof.
  unfold forgotPassword. destruct (truthy email); [|by left]. simpl.
  destruct (findOne (byEmail (str email)) (users db)) as [[uid user]|] eqn:Hf;
    [|by left].
  apply findOne_Some in Hf as [Hu He]. right. by exists uid, user.
Qed.

(** X9: the reset flow end to end. For an identity that alone has its
    email, the reset token issued for it, presented before its expiry with
    a non-empty new password, makes reset-password answer 200; a login with
    the email and the new password then answers 200 for the same identity
    (bcrypt accepting the new password against the hash it made of it). *)
Theorem reset_then_login (env2 env3 : Env) (clock : Z) (uid : N)
    (user : User) (password : string) (db : DB) :
  users db !! uid = Some user ->
  (forall uid' u', users db !! uid' = Some u' ->
                   u_email u' = u_email user -> uid' = uid) ->
  u_email user <> "" -> password <> "" ->
  reads_back (signed uid None JWT_SECRET 3600 clock) = true ->
  Z.div (date_now env2) 1000 < Z.div clock 1000 + 3600 ->
  bcrypt_compare password (bcrypt_hash password (gen_salt env2)) = true ->
  exists db1,
    resetPassword env2 (Some (resetTokenFor clock uid)) (Some password) db
      = (json_message 200 "Password updated successfully", db1)
    /\ login env3 (JString (u_email user)) (JString password) db1
       = (mkResponse 200
            (TokenUser
               (generateToken (date_now env3) uid
                  (mkUser (u_email user)
                     (hashPassword (gen_salt env2) password)))
               uid (u_email user)),
          db1).
Proof.
  intros Hu Huniq He Hp Hrb Hlive Hbcrypt.
  apply truthy_Some in He, Hp.
  set (user' := mkUser (u_email user) (hashPassword (gen_salt env2) password)).
  exists (updateUser uid user' db).
  assert (Hv : jwt_verify (date_now env2) (resetTokenFor clock uid) JWT_SECRET
               = Return (payload (signed uid None JWT_SECRET 3600 clock))).
  { unfold resetTokenFor. rewrite (jwt_verify_signed _ _ _ _ _ _ Hrb).
    assert (Hleb : Z.leb (Z.div clock 1000 + 3600)
                     (Z.div (date_now env2) 1000) = false)
      by (apply Z.leb_gt; lia).
    by rewrite Hleb. }
  assert (Ht : truthy (Some (resetTokenFor clock uid)) = true).
  { apply jwt_verify_Return in Hv as [Hne _]. by apply truthy_Some. }
  split.
  - by rewrite (resetPassword_verified env2 _ (Some password) db _ user
                  Ht Hp Hv Hu).
  - assert (Hfound : findOne (byEmail (u_email user))
                       (<[uid := user']> (users db)) = Some (uid, user')).
    { apply findOne_unique.
      - apply lookup_insert_eq.
      - reflexivity.
      - intros k' d' Hk' Hq.
        destruct (decide (k' = uid)) as [->|Hne].
        + rewrite lookup_insert_eq in Hk'. congruence.
        + rewrite lookup_insert_ne in Hk' by done.
          exfalso. apply Hne. by apply (Huniq k' d'). }
    unfold login, findOneByEmail. simpl in *. rewrite He, Hp. simpl.
    rewrite Hfound. unfold user', hashPassword. simpl.
    rewrite Hbcrypt. reflexivity.
Qed.

End SessionFacts.

Section SessionFacts_on_sample.
#[local] Existing Instance Sample.platform.


Lemma login_token_at_gate_witness :
  authMiddleware 2000000
    (Some ("Bearer " +:+ Demo.encode Sample.session_jwt))
  = Next (mkAuthUser Sample.alice (Some "alice@example.org")).
Proof.
  apply (login_token_at_gate (mkEnv 1000000 "" 0%N) 2000000
           (JString "alice@example.org") (JString "correct horse")
           Sample.db0 Sample.db0).
  - vm_compute. reflexivity.
  - vm_compute. reflexivity.
  - vm_compute. reflexivity.
Defined.

Lemma reset_soundness_witness :
  exists j user,
    jws_decode Sample.reset_token = Some j
    /\ signature j = HS256 JWT_SECRET (payload j)
    /\ Z.div 2000000 1000 < c_exp (payload j)
    /\ users Sample.db0 !! c_id (payload j) = Some user
    /\ Sample.db_after_first_reset
       = updateUser (c_id (payload j))
           (mkUser (u_email user)
              (bcrypt_hash "first" "saltsaltsaltsaltsaltCC")) Sample.db0.
Proof.
  destruct (reset_soundness (mkEnv 2000000 "saltsaltsaltsaltsaltCC" 0%N)
              (Some Sample.reset_token) (Some "first") Sample.db0
              Sample.db_after_first_reset
              (json_message 200 "Password updated successfully"))
    as [_ H200].
  - vm_compute. reflexivity.
  - exact (H200 eq_refl).
Defined.

Lemma session_token_resets_password_witness :
  resetPassword (mkEnv 2000000 "saltsaltsaltsaltsaltCC" 0%N)
    (Some (generateToken 1000000 Sample.alice Sample.alice_doc))
    (Some "taken over") Sample.db0
  = (json_message 200 "Password updated successfully",
     updateUser Sample.alice
       (mkUser "alice@example.org"
          (hashPassword "saltsaltsaltsaltsaltCC" "taken over")) Sample.db0).
Proof.
  apply (session_token_resets_password
           (mkEnv 2000000 "saltsaltsaltsaltsaltCC" 0%N) 1000000
           Sample.alice Sample.alice_doc (Some "taken over") Sample.db0).
  - vm_compute. reflexivity.
  - vm_compute. reflexivity.
  - vm_compute. reflexivity.
  - vm_compute. reflexivity.
Defined.

Lemma forgot_password_reveals_nothing_witness :
  (forgotPassword (mkEnv 1000000 "" 0%N) (Some "alice@example.org")
     Sample.db0).1
    = json_message 200 "If the email exists, instructions will be sent"
  /\ (forgotPassword (mkEnv 1000000 "" 0%N) (Some "alice@example.org")
        Sample.db0).1
     = (forgotPassword (mkEnv 7000000 "" 0%N) (Some "alice@example.org")
          (mkDB ∅ ∅)).1.
Proof.
  apply (forgot_password_reveals_nothing (mkEnv 1000000 "" 0%N)
           (mkEnv 7000000 "" 0%N) (Some "alice@example.org")
           Sample.db0 (mkDB ∅ ∅)).
  vm_compute. reflexivity.
Defined.

Lemma reset_then_login_witness :
  exists db1,
    resetPassword (mkEnv 2000000 "saltsaltsaltsaltsaltCC" 0%N)
      (Some (resetTokenFor 1000000 Sample.alice)) (Some "first") Sample.db0
      = (json_message 200 "Password updated successfully", db1)
    /\ login (mkEnv 3000000 "" 0%N) (JString "alice@example.org")
         (JString "first") db1
       = (mkResponse 200
            (TokenUser
               (generateToken 3000000 Sample.alice
                  (mkUser "alice@example.org"
                     (hashPassword "saltsaltsaltsaltsaltCC" "first")))
               Sample.alice "alice@example.org"),
          db1).
Proof.
  apply (reset_then_login (mkEnv 2000000 "saltsaltsaltsaltsaltCC" 0%N)
           (mkEnv 3000000 "" 0%N) 1000000 Sample.alice Sample.alice_doc
           "first" Sample.db0).
  - vm_compute. reflexivity.
  - refine (proj1 (map_Forall_lookup
                     (fun uid' u' => u_email u' = u_email Sample.alice_doc ->
                                     uid' = Sample.alice) _) _).
    apply (bool_decide_unpack _). vm_compute. exact I.
  - discriminate.
  - discriminate.
  - vm_compute. reflexivity.
  - vm_compute. reflexivity.
  - vm_compute. reflexivity.
Defined.

End SessionFacts_on_sample.

(** ** What a request can do to the database *)

Section RouteFacts.
Context `{P : Platform}.

Lemma register_cases env email password db r db1 :
  register env email password db = (r, db1) ->
  db1 = db
  \/ (users db !! new_id env = None
      /\ findOne (byEmail (str email)) (users db) = None
      /\ db1 = mkDB (<[new_id env :=
                        mkUser (str email)
                          (hashPassword (gen_salt env) (str password))]>
                      (users db))
                 (notes db)).
Proof.
  unfold register, insertUser. intros Hreg.
  destruct (negb (truthy email) || negb (truthy password));
    [left; congruence|].
  destruct (findOne (byEmail (str email)) (users db)) as [found|] eqn:Hfind;
    [left; congruence|].
  simpl in Hreg.
  destruct (users db !! new_id env) as [used|] eqn:Hid;
    rewrite ?Hfind in Hreg; simpl in Hreg; [left; congruence|].
  right. inversion Hreg; subst. split; [done|]. split; [done|]. reflexivity.
Qed.

Lemma createNote_cases env title content user db r db1 :
  createNote env title content user db = (r, db1) ->
  db1 = db
  \/ (notes db !! new_id env = None
      /\ db1 = mkDB (users db)
                 (<[new_id env :=
                      mkNote title content (au_id user) (date_now env)]>
                    (notes db))).
Proof.
  unfold createNote, insertNote. intros Hc.
  destruct (negb (truthy title) || negb (truthy content));
    [left; congruence|].
  destruct (notes db !! new_id env) eqn:Hid; [left; congruence|].
  right. inversion Hc; subst. done.
Qed.

Lemma updateNoteById_cases id title content user db r db1 :
  updateNoteById id title content user db = (r, db1) ->
  db1 = db
  \/ exists k n,
       notes db !! k = Some n /\ n_owner n = au_id user
       /\ db1 = mkDB (users db)
                  (<[k := mkNote title content (n_owner n) (n_createdAt n)]>
                     (notes db)).
Proof.
  unfold updateNoteById. intros Hu.
  destruct (castObjectId id) as [noteId|]; simpl in Hu; [|left; congruence].
  destruct (findOne (byIdAndOwner noteId (au_id user)) (notes db))
    as [[k n]|] eqn:Hf; [|left; congruence].
  apply findOne_Some in Hf as [Hk [_ Ho]]. simpl in *.
  right. exists k, n. inversion Hu; subst. done.
Qed.

Lemma deleteNoteById_cases id user db r db1 :
  deleteNoteById id user db = (r, db1) ->
  db1 = db
  \/ exists k n,
       notes db !! k = Some n /\ n_owner n = au_id user
       /\ db1 = mkDB (users db) (delete k (notes db)).
Proof.
  unfold deleteNoteById, findOneAndDelete. intros Hd.
  destruct (castObjectId id) as [noteId|]; simpl in Hd; [|left; congruence].
  destruct (findOne (byIdAndOwner noteId (au_id user)) (notes db))
    as [[k n]|] eqn:Hf; [|left; congruence].
  apply findOne_Some in Hf as [Hk [_ Ho]]. simpl in *.
  right. exists k, n. inversion Hd; subst. done.
Qed.

(** Each route changes the database in one of the ways of [Change]. *)
Lemma route_cases (env : Env) (req : Request) (db db1 : DB)
    (r : Response) :
  route env req db = (r, db1) -> Change (actor env req) db db1.
Proof.
  destruct req as [e p|e p|e|t p|a|a|a t c|a id t c|a id];
    unfold route, actor, guarded; simpl; intros Hr.
  - apply register_cases in Hr as [->|(Hid & Hnone & ->)]; [constructor|].
    apply UserAdded; [done|]. by apply findOne_byEmail_None.
  - apply login_cases in Hr as [-> _]. constructor.
  - inversion Hr; subst. constructor.
  - destruct (decide (status r = 200%nat)) as [H200|Hne].
    + apply resetPassword_cases in Hr as [_ Hr].
      destruct (Hr H200) as (j & user & _ & _ & _ & Hu & ->).
      by apply PasswordSet.
    + apply resetPassword_cases in Hr as [Hr _]. rewrite (Hr Hne). constructor.
  - destruct (authMiddleware (date_now env) a); inversion Hr; subst;
      constructor.
  - destruct (authMiddleware (date_now env) a); inversion Hr; subst;
      constructor.
  - destruct (authMiddleware (date_now env) a) as [user|];
      [|inversion Hr; subst; constructor].
    apply createNote_cases in Hr as [->|(Hid & ->)]; [constructor|].
    by eapply NoteAdded.
  - destruct (authMiddleware (date_now env) a) as [user|];
      [|inversion Hr; subst; constructor].
    apply updateNoteById_cases in Hr as [->|(k & n & Hk & Ho & ->)];
      [constructor|].
    by eapply NoteEdited.
  - destruct (authMiddleware (date_now env) a) as [user|];
      [|inversion Hr; subst; constructor].
    apply deleteNoteById_cases in Hr as [->|(k & n & Hk & Ho & ->)];
      [constructor|].
    by eapply NoteDeleted.
Qed.

(** X10: whatever the request, the database afterwards is the database
    before changed in one of the ways of [Change]: notes are added, edited
    and removed only for the identity the gate bound, and only among its
    own notes; an identity is added only under an unused [_id] and email;
    a password is replaced only for an existing identity, whose email is
    kept. *)
Theorem route_change (env : Env) (req : Request) (db db1 : DB)
    (r : Response) :
  route env req db = (r, db1) -> Change (actor env req) db db1.
Proof. exact (route_cases env req db db1 r). Qed.

(** X11: no request makes two identities share an email: if emails are
    unique before a request, they are unique after it. *)
Theorem route_keeps_emails_unique (env : Env) (req : Request) (db db1 : DB)
    (r : Response) :
  route env req db = (r, db1) -> unique_emails db -> unique_emails db1.
Proof.
  intros Hr Huniq. apply route_cases in Hr.
  destruct Hr as [|uid u Hid Hfree|uid u h Hu| | |]; try exact Huniq.
  - intros k1 u1 k2 u2. simpl.
    destruct (decide (k1 = uid)) as [->|H1], (decide (k2 = uid)) as [->|H2];
      rewrite ?lookup_insert_eq, ?lookup_insert_ne by done; try done.
    + intros [= <-] H2' He. exfalso. by apply (Hfree k2 u2).
    + intros H1' [= <-] He. exfalso. by apply (Hfree k1 u1).
    + apply Huniq.
  - intros k1 u1 k2 u2. simpl.
    destruct (decide (k1 = uid)) as [->|H1], (decide (k2 = uid)) as [->|H2];
      rewrite ?lookup_insert_eq, ?lookup_insert_ne by done; try done.
    + intros [= <-] H2' He. simpl in He. symmetry. by apply (Huniq k2 u2 uid u).
    + intros H1' [= <-] He. simpl in He. by apply (Huniq k1 u1 uid u).
    + apply Huniq.
Qed.

(** X12: no request removes an identity or changes its email; and its
    stored password changes only through reset-password. *)
Theorem route_keeps_identities (env : Env) (req : Request) (db db1 : DB)
    (r : Response) (uid : N) (u : User) :
  route env req db = (r, db1) ->
  users db !! uid = Some u ->
  exists u',
    users db1 !! uid = Some u' /\ u_email u' = u_email u
    /\ ((forall token password, req <> POST_reset_password token password) ->
        u' = u).
Proof.
  intros Hr Hu.
  assert (Hkeep : (forall token password,
                     req <> POST_reset_password token password) ->
                  users db1 !! uid = Some u).
  { intros Hnot.
    destruct req as [e p|e p|e|t p|a|a|a t c|a id t c|a id];
      unfold route, guarded in Hr.
    - apply register_cases in Hr as [->|(Hid & _ & ->)]; [done|]. simpl.
      rewrite lookup_insert_ne; [done | congruence].
    - by apply login_cases in Hr as [-> _].
    - by inversion Hr; subst.
    - by destruct (Hnot t p).
    - destruct (authMiddleware (date_now env) a); by inversion Hr; subst.
    - destruct (authMiddleware (date_now env) a); by inversion Hr; subst.
    - destruct (authMiddleware (date_now env) a);
        [|by inversion Hr; subst].
      by apply createNote_cases in Hr as [->|(_ & ->)].
    - destruct (authMiddleware (date_now env) a);
        [|by inversion Hr; subst].
      by apply updateNoteById_cases in Hr as [->|(? & ? & _ & _ & ->)].
    - destruct (authMiddleware (date_now env) a);
        [|by inversion Hr; subst].
      by apply deleteNoteById_cases in Hr as [->|(? & ? & _ & _ & ->)]. }
  apply route_cases in Hr.
  destruct Hr as [|k v Hid Hfree|k v h Hv| | |]; simpl;
    try (exists u; split; [done|]; split; done).
  - exists u. rewrite lookup_insert_ne by congruence. done.
  - destruct (decide (uid = k)) as [->|Hne].
    + rewrite lookup_insert_eq. rewrite Hu in Hv. inversion Hv; subst v.
      eexists. split; [reflexivity|]. split; [reflexivity|].
      intros Hnot. specialize (Hkeep Hnot). simpl in Hkeep.
      rewrite lookup_insert_eq in Hkeep. by inversion Hkeep.
    + exists u. rewrite lookup_insert_ne by done. done.
Qed.

(** X13: the owner and the creation time of a note never change: a note
    that is still there after a request has the owner and the creation time
    it had before. *)
Theorem route_keeps_owner_and_time (env : Env) (req : Request) (db db1 : DB)
    (r : Response) (k : N) (n n1 : Note) :
  route env req db = (r, db1) ->
  notes db !! k = Some n -> notes db1 !! k = Some n1 ->
  n_owner n1 = n_owner n /\ n_createdAt n1 = n_createdAt n.
Proof.
  intros Hr Hn Hn1. apply route_cases in Hr.
  destruct Hr as [| | |user k' n' Hw Hk' Ho|user k' n' t c Hw Hk' Ho
                  |user k' n' Hw Hk' Ho]; simpl in Hn1.
  - by rewrite Hn in Hn1; inversion Hn1.
  - by rewrite Hn in Hn1; inversion Hn1.
  - by rewrite Hn in Hn1; inversion Hn1.
  - rewrite lookup_insert_ne in Hn1 by congruence.
    by rewrite Hn in Hn1; inversion Hn1.
  - destruct (decide (k = k')) as [->|Hne].
    + rewrite lookup_insert_eq in Hn1. inversion Hn1; subst n1.
      rewrite Hn in Hk'. by inversion Hk'.
    + rewrite lookup_insert_ne in Hn1 by done.
      by rewrite Hn in Hn1; inversion Hn1.
  - destruct (decide (k = k')) as [->|Hne].
    + by rewrite lookup_delete_eq in Hn1.
    + rewrite lookup_delete_ne in Hn1 by done.
      by rewrite Hn in Hn1; inversion Hn1.
Qed.

(** X14: ownership isolation for every route: if a request changes or
    removes a note, or creates one, then the request passed the gate and
    the identity the gate bound is the owner of that note. *)
Theorem route_isolation (env : Env) (req : Request) (db db1 : DB)
    (r : Response) (k : N) :
  route env req db = (r, db1) ->
  notes db1 !! k <> notes db !! k ->
  exists user,
    actor env req = Some user
    /\ (forall n, notes db !! k = Some n -> n_owner n = au_id user)
    /\ (forall n, notes db1 !! k = Some n -> n_owner n = au_id user).
Proof.
  intros Hr Hdiff. apply route_cases in Hr.
  destruct Hr as [| | |user k' n' Hw Hk' Ho|user k' n' t c Hw Hk' Ho
                  |user k' n' Hw Hk' Ho]; simpl in Hdiff; try done.
  - destruct (decide (k = k')) as [->|Hne];
      [|by rewrite lookup_insert_ne in Hdiff].
    exists user. split; [done|]. simpl. rewrite lookup_insert_eq, Hk'.
    split; [done|]. by intros n [= <-].
  - destruct (decide (k = k')) as [->|Hne];
      [|by rewrite lookup_insert_ne in Hdiff].
    exists user. split; [done|]. simpl. rewrite lookup_insert_eq, Hk'.
    split; [by intros n [= <-]|]. by intros n [= <-].
  - destruct (decide (k = k')) as [->|Hne];
      [|by rewrite lookup_delete_ne in Hdiff].
    exists user. split; [done|]. simpl. rewrite lookup_delete_eq, Hk'.
    split; [by intros n [= <-]|]. done.
Qed.

(** X15: a request to a guarded route that the gate refuses is answered by
    the gate and changes nothing: no handler runs before the gate. *)
Theorem refused_request_changes_nothing (env : Env) (req : Request)
    (db : DB) (a : option string) (refusal : Response) :
  authorization_of req = Some a ->
  authMiddleware (date_now env) a = Respond refusal ->
  route env req db = (refusal, db).
Proof.
  intros Ha Hgate.
  destruct req; simpl in Ha; try discriminate Ha; inversion Ha; subst a;
    unfold route, guarded; by rewrite Hgate.
Qed.

End RouteFacts.

(** ** Notes: create, delete, malformed identifiers *)

Section MoreNoteFacts.
Context `{P : Platform}.

(** X16: a note created with a non-empty title and content (under an
    unused [_id]) is answered 201 with the note, which belongs to the
    caller and is dated by the clock; the caller's list afterwards is the
    list before plus that note. *)
Theorem create_then_list (env : Env) (title content : option string)
    (user : AuthUser) (db : DB) :
  truthy title = true -> truthy content = true ->
  notes db !! new_id env = None ->
  exists db1 l l1,
    createNote env title content user db
      = (mkResponse 201
           (NoteBody (new_id env,
                      mkNote title content (au_id user) (date_now env))),
         db1)
    /\ listNotes user db = (mkResponse 200 (NotesBody l), db)
    /\ listNotes user db1 = (mkResponse 200 (NotesBody l1), db1)
    /\ forall x, x ∈ l1 <->
         x = (new_id env, mkNote title content (au_id user) (date_now env))
         \/ x ∈ l.
Proof.
  intros Ht Hc Hid.
  set (note := mkNote title content (au_id user) (date_now env)).
  exists (mkDB (users db) (<[new_id env := note]> (notes db))),
         (findSorted (au_id user) (notes db)),
         (findSorted (au_id user) (<[new_id env := note]> (notes db))).
  split; [|split; [reflexivity|split; [reflexivity|]]].
  - unfold createNote, insertNote. by rewrite Ht, Hc, Hid.
  - intros [k n]. rewrite !findSorted_elem_of.
    destruct (decide (k = new_id env)) as [->|Hne].
    + rewrite lookup_insert_eq, Hid. split.
      * intros [[= <-] _]. by left.
      * intros [[= ->]|[? _]]; [split; reflexivity | discriminate].
    + rewrite lookup_insert_ne by done. split; [by right|].
      intros [[= ? ?]|?]; [congruence | done].
Qed.

(** X17: deleting a note of one's own answers 200 and removes that note
    and no other; the same request sent again, and an update of the same
    identifier, are then answered 404. *)
Theorem delete_owned_note (id : string) (noteId : N) (user : AuthUser)
    (db : DB) (note : Note) (title content : option string) :
  castObjectId id = Some noteId ->
  notes db !! noteId = Some note ->
  n_owner note = au_id user ->
  exists db1,
    deleteNoteById id user db
      = (json_message 200 "Note deleted successfully", db1)
    /\ users db1 = users db
    /\ notes db1 = delete noteId (notes db)
    /\ deleteNoteById id user db1 = (json_message 404 "Note not found", db1)
    /\ updateNoteById id title content user db1
       = (json_message 404 "Note not found", db1).
Proof.
  intros Hc Hn Ho.
  exists (mkDB (users db) (delete noteId (notes db))).
  assert (Hgone : forall note',
            notes (mkDB (users db) (delete noteId (notes db))) !! noteId
              = Some note' -> n_owner note' <> au_id user).
  { intros note'. simpl. by rewrite lookup_delete_eq. }
  split; [|split; [done|split; [done|split]]].
  - unfold deleteNoteById, findOneAndDelete. rewrite Hc. simpl.
    rewrite findOne_byIdAndOwner, Hn. by rewrite decide_True.
  - by apply (deleteNoteById_missing id noteId).
  - by apply (updateNoteById_missing id noteId).
Qed.

(** X18: an [:id] that does not cast to an ObjectId makes update and
    delete answer 500 and change nothing. *)
Theorem malformed_note_id (id : string) (title content : option string)
    (user : AuthUser) (db : DB) :
  castObjectId id = None ->
  status (updateNoteById id title content user db).1 = 500%nat
  /\ (updateNoteById id title content user db).2 = db
  /\ status (deleteNoteById id user db).1 = 500%nat
  /\ (deleteNoteById id user db).2 = db.
Proof.
  intros Hc. unfold updateNoteById, deleteNoteById. by rewrite Hc.
Qed.

End MoreNoteFacts.

Lemma unique_emails_sample : unique_emails Sample.db0.
Proof.
  intros uid1 u1 uid2 u2 H1 H2.
  revert uid2 u2 H2.
  refine (proj1 (map_Forall_lookup
                   (fun k2 v2 => u_email u1 = u_email v2 -> uid1 = k2) _) _).
  revert uid1 u1 H1.
  refine (proj1 (map_Forall_lookup
                   (fun k1 v1 =>
                      map_Forall (fun k2 v2 => u_email v1 = u_email v2 ->
                                                k1 = k2)
                        (users Sample.db0)) _) _).
  apply (bool_decide_unpack _). vm_compute. exact I.
Qed.

Section RouteFacts_on_sample.
#[local] Existing Instance Sample.platform.

(** Alice, with her session token, edits her note 1. *)
Lemma route_change_witness :
  Change
    (actor (mkEnv 2000000 "" 0%N)
       (PUT_note (Some ("Bearer " +:+ Demo.encode Sample.session_jwt))
          Sample.id_of_note1 (Some "done") (Some "milk bought")))
    Sample.db0
    (route (mkEnv 2000000 "" 0%N)
       (PUT_note (Some ("Bearer " +:+ Demo.encode Sample.session_jwt))
          Sample.id_of_note1 (Some "done") (Some "milk bought"))
       Sample.db0).2.
Proof.
  apply (route_change (mkEnv 2000000 "" 0%N)
           (PUT_note (Some ("Bearer " +:+ Demo.encode Sample.session_jwt))
              Sample.id_of_note1 (Some "done") (Some "milk bought"))
           Sample.db0 _
           (route (mkEnv 2000000 "" 0%N)
              (PUT_note (Some ("Bearer " +:+ Demo.encode Sample.session_jwt))
                 Sample.id_of_note1 (Some "done") (Some "milk bought"))
              Sample.db0).1).
  apply surjective_pairing.
Defined.

Lemma route_keeps_emails_unique_witness :
  unique_emails
    (route (mkEnv 4000000 "saltsaltsaltsaltsaltEE" 195%N)
       (POST_register (Some "carol@example.org") (Some "tr0ub4dor"))
       Sample.db0).2.
Proof.
  apply (route_keeps_emails_unique
           (mkEnv 4000000 "saltsaltsaltsaltsaltEE" 195%N)
           (POST_register (Some "carol@example.org") (Some "tr0ub4dor"))
           Sample.db0 _
           (route (mkEnv 4000000 "saltsaltsaltsaltsaltEE" 195%N)
              (POST_register (Some "carol@example.org") (Some "tr0ub4dor"))
              Sample.db0).1).
  - apply surjective_pairing.
  - exact unique_emails_sample.
Defined.

Lemma route_keeps_identities_witness :
  exists u',
    users (route (mkEnv 2000000 "saltsaltsaltsaltsaltCC" 0%N)
             (POST_reset_password (Some Sample.reset_token) (Some "first"))
             Sample.db0).2 !! Sample.alice = Some u'
    /\ u_email u' = u_email Sample.alice_doc
    /\ ((forall token password,
           POST_reset_password (Some Sample.reset_token) (Some "first")
           <> POST_reset_password token password) ->
        u' = Sample.alice_doc).
Proof.
  apply (route_keeps_identities (mkEnv 2000000 "saltsaltsaltsaltsaltCC" 0%N)
           (POST_reset_password (Some Sample.reset_token) (Some "first"))
           Sample.db0 _
           (route (mkEnv 2000000 "saltsaltsaltsaltsaltCC" 0%N)
              (POST_reset_password (Some Sample.reset_token) (Some "first"))
              Sample.db0).1).
  - apply surjective_pairing.
  - vm_compute. reflexivity.
Defined.

Lemma route_keeps_owner_and_time_witness :
  n_owner (mkNote (Some "done") (Some "milk bought") Sample.alice 2000000)
    = n_owner Sample.note1
  /\ n_createdAt
       (mkNote (Some "done") (Some "milk bought") Sample.alice 2000000)
     = n_createdAt Sample.note1.
Proof.
  apply (route_keeps_owner_and_time (mkEnv 2000000 "" 0%N)
           (PUT_note (Some ("Bearer " +:+ Demo.encode Sample.session_jwt))
              Sample.id_of_note1 (Some "done") (Some "milk bought"))
           Sample.db0
           (route (mkEnv 2000000 "" 0%N)
              (PUT_note (Some ("Bearer " +:+ Demo.encode Sample.session_jwt))
                 Sample.id_of_note1 (Some "done") (Some "milk bought"))
              Sample.db0).2
           (route (mkEnv 2000000 "" 0%N)
              (PUT_note (Some ("Bearer " +:+ Demo.encode Sample.session_jwt))
                 Sample.id_of_note1 (Some "done") (Some "milk bought"))
              Sample.db0).1
           1%N).
  - apply surjective_pairing.
  - vm_compute. reflexivity.
  - vm_compute. reflexivity.
Defined.

Lemma route_isolation_witness :
  exists user,
    actor (mkEnv 2000000 "" 0%N)
      (DELETE_note (Some ("Bearer " +:+ Demo.encode Sample.session_jwt))
         Sample.id_of_note1) = Some user
    /\ (forall n, notes Sample.db0 !! 1%N = Some n -> n_owner n = au_id user)
    /\ (forall n,
          notes (route (mkEnv 2000000 "" 0%N)
                   (DELETE_note
                      (Some ("Bearer " +:+ Demo.encode Sample.session_jwt))
                      Sample.id_of_note1) Sample.db0).2 !! 1%N = Some n ->
          n_owner n = au_id user).
Proof.
  apply (route_isolation (mkEnv 2000000 "" 0%N)
           (DELETE_note (Some ("Bearer " +:+ Demo.encode Sample.session_jwt))
              Sample.id_of_note1)
           Sample.db0 _
           (route (mkEnv 2000000 "" 0%N)
              (DELETE_note
                 (Some ("Bearer " +:+ Demo.encode Sample.session_jwt))
                 Sample.id_of_note1) Sample.db0).1).
  - apply surjective_pairing.
  - vm_compute. discriminate.
Defined.

Lemma refused_request_changes_nothing_witness :
  route (mkEnv 700000000 "" 9%N)
    (POST_notes (Some ("Bearer " +:+ Demo.encode Sample.session_jwt))
       (Some "late") (Some "note")) Sample.db0
  = (json_message 401 "Invalid token", Sample.db0).
Proof.
  apply (refused_request_changes_nothing (mkEnv 700000000 "" 9%N)
           (POST_notes (Some ("Bearer " +:+ Demo.encode Sample.session_jwt))
              (Some "late") (Some "note"))
           Sample.db0
           (Some ("Bearer " +:+ Demo.encode Sample.session_jwt))).
  - reflexivity.
  - vm_compute. reflexivity.
Defined.

Lemma create_then_list_witness :
  exists db1 l l1,
    createNote (mkEnv 5000000 "" 9%N) (Some "new") (Some "note")
      Sample.alice_user Sample.db0
      = (mkResponse 201
           (NoteBody (9%N, mkNote (Some "new") (Some "note") Sample.alice
                             5000000)),
         db1)
    /\ listNotes Sample.alice_user Sample.db0
       = (mkResponse 200 (NotesBody l), Sample.db0)
    /\ listNotes Sample.alice_user db1 = (mkResponse 200 (NotesBody l1), db1)
    /\ forall x, x ∈ l1 <->
         x = (9%N, mkNote (Some "new") (Some "note") Sample.alice 5000000)
         \/ x ∈ l.
Proof.
  apply (create_then_list (mkEnv 5000000 "" 9%N) (Some "new") (Some "note")
           Sample.alice_user Sample.db0).
  - vm_compute. reflexivity.
  - vm_compute. reflexivity.
  - vm_compute. reflexivity.
Defined.

Lemma delete_owned_note_witness :
  exists db1,
    deleteNoteById Sample.id_of_note1 Sample.alice_user Sample.db0
      = (json_message 200 "Note deleted successfully", db1)
    /\ users db1 = users Sample.db0
    /\ notes db1 = delete 1%N (notes Sample.db0)
    /\ deleteNoteById Sample.id_of_note1 Sample.alice_user db1
       = (json_message 404 "Note not found", db1)
    /\ updateNoteById Sample.id_of_note1 (Some "again") None
         Sample.alice_user db1
       = (json_message 404 "Note not found", db1).
Proof.
  apply (delete_owned_note Sample.id_of_note1 1%N Sample.alice_user
           Sample.db0 Sample.note1 (Some "again") None).
  - vm_compute. reflexivity.
  - vm_compute. reflexivity.
  - vm_compute. reflexivity.
Defined.

Lemma malformed_note_id_witness :
  status (updateNoteById "not-an-id" (Some "t") (Some "c") Sample.alice_user
            Sample.db0).1 = 500%nat
  /\ (updateNoteById "not-an-id" (Some "t") (Some "c") Sample.alice_user
        Sample.db0).2 = Sample.db0
  /\ status (deleteNoteById "not-an-id" Sample.alice_user Sample.db0).1
     = 500%nat
  /\ (deleteNoteById "not-an-id" Sample.alice_user Sample.db0).2 = Sample.db0.
Proof.
  apply (malformed_note_id "not-an-id" (Some "t") (Some "c")
           Sample.alice_user Sample.db0).
  vm_compute. reflexivity.
Defined.

End RouteFacts_on_sample.
